(** * pyOpenFEMA: the [OpenFEMA] class of [pyOpenFEMA/OpenFEMA.py]

    A shallow embedding of the class and of the part of pandas it calls,
    followed by the properties of the dataset catalogue, of the schema
    lookup, of the file-format selection and of the dtype coercion.

    Conventions.
    - A Python [dict] is an insertion-ordered association list; its keys are
      distinct in Python, which theorems assume as [NoDup (keys d)] where
      they need it.
    - Exceptions are values of [exn]; a call returns [Ok v] or [Raise e].
      Calls that may also emit warnings run in [M].
    - Everything on the far side of the network or of a parser (fsspec,
      json, yaml, the parquet/csv/json/geojson readers, [generate_url],
      [pd.to_datetime], and the dtypes of [astype] not modelled below) is a
      field of [External]. *)

From Stdlib Require Import String Ascii List ZArith Bool Lia Arith.
From Stdlib Require Import DecimalString OrdersEx Mergesort Sorted Permutation.
From Stdlib Require Import RelationClasses.
Import ListNotations.
Open Scope string_scope.
Open Scope list_scope.

Set Implicit Arguments.

(** String concatenation, as in an f-string. *)
Infix "+++" := String.append (right associativity, at level 60).

(** ** Python values and errors *)

Module Py.

(** The exceptions the program raises or lets through. *)
Inductive exn : Type :=
| ValueError (msg : string)
| FileNotFoundError (msg : string)
| NotImplementedError (msg : string) (options : list string)
| KeyError (key : string)
| IndexError
| TypeError
| AttributeError
| OtherError (name : string).

Inductive result (A : Type) : Type :=
| Ok (a : A)
| Raise (e : exn).
Arguments Ok {A} a.
Arguments Raise {A} e.

Definition bind {A B} (r : result A) (k : A -> result B) : result B :=
  match r with
  | Ok a => k a
  | Raise e => Raise e
  end.

(** [warnings.warn(message, UserWarning)]; the list interpolated in the
    message is kept as a list. *)
Inductive warning : Type :=
| UserWarning (msg : string) (names : list string).

(** Computations that may warn before they return or raise. *)
Definition M (A : Type) : Type := (list warning * result A)%type.

Definition ret {A} (a : A) : M A := ([], Ok a).
Definition raise {A} (e : exn) : M A := ([], Raise e).
Definition warn (w : warning) : M unit := ([w], Ok tt).
Definition lift {A} (r : result A) : M A := ([], r).
Definition mbind {A B} (m : M A) (k : A -> M B) : M B :=
  match m with
  | (w, Ok a) => let (w', r) := k a in (w ++ w', r)
  | (w, Raise e) => (w, Raise e)
  end.

(** [x in s] on strings: [sub] occurs in [s]. *)
Fixpoint contains (sub s : string) : bool :=
  String.prefix sub s ||
  match s with
  | EmptyString => false
  | String _ s' => contains sub s'
  end.

Definition upper (c : ascii) : ascii :=
  let n := nat_of_ascii c in
  if (97 <=? n)%nat && (n <=? 122)%nat then ascii_of_nat (n - 32) else c.

Definition lower (c : ascii) : ascii :=
  let n := nat_of_ascii c in
  if (65 <=? n)%nat && (n <=? 90)%nat then ascii_of_nat (n + 32) else c.

Fixpoint lowercase (s : string) : string :=
  match s with
  | EmptyString => EmptyString
  | String c s' => String (lower c) (lowercase s')
  end.

(** [str.capitalize()] on ASCII text: first character upper-cased, the
    rest lower-cased. *)
Definition capitalize (s : string) : string :=
  match s with
  | EmptyString => EmptyString
  | String c s' => String (upper c) (lowercase s')
  end.

(** [str(n)] for an [int]. *)
Definition str_int (z : Z) : string := NilZero.string_of_int (Z.to_int z).

(** [l[0]]. *)
Definition item0 {A} (l : list A) : result A :=
  match l with
  | x :: _ => Ok x
  | [] => Raise IndexError
  end.

(** *** dict *)

Definition dict (V : Type) : Type := list (string * V).

Definition keys {V} (d : dict V) : list string := map fst d.

Fixpoint dict_get {V} (d : dict V) (k : string) : option V :=
  match d with
  | [] => None
  | (k', v) :: r => if String.eqb k' k then Some v else dict_get r k
  end.

(** [d[k]]. *)
Definition getitem {V} (d : dict V) (k : string) : result V :=
  match dict_get d k with
  | Some v => Ok v
  | None => Raise (KeyError k)
  end.

(** [d[k] = v]: in place for a key of [d], at the end for a new key. *)
Fixpoint dict_set {V} (d : dict V) (k : string) (v : V) : dict V :=
  match d with
  | [] => [(k, v)]
  | (k', v') :: r =>
      if String.eqb k' k then (k', v) :: r else (k', v') :: dict_set r k v
  end.

(** [{key: f(key, value) for key, value in d.items()}]. *)
Definition dict_comprehension {V W} (f : string -> V -> W) (d : dict V)
  : dict W :=
  fold_left (fun acc kv => dict_set acc (fst kv) (f (fst kv) (snd kv))) d [].

End Py.
Import Py.

Declare Scope py_scope.
Delimit Scope py_scope with py.
Notation "x <- r ;; k" := (bind r (fun x => k))
  (at level 61, r at next level, right associativity) : py_scope.
Notation "x <~ m ;; k" := (mbind m (fun x => k))
  (at level 61, m at next level, right associativity) : py_scope.
Notation "m ;;; k" := (mbind m (fun _ => k))
  (at level 61, right associativity) : py_scope.
Open Scope py_scope.

(** ** The part of pandas the program uses *)

Module Pandas.

(** A table cell.  [NA] is the missing value; [VList] is an array of
    strings (the catalogue's [distribution]); [VDict] is a dict of
    strings (the [columns] entry that [dataset_info] adds to a record). *)
Inductive cell : Type :=
| NA
| VInt (z : Z)
| VStr (s : string)
| VBool (b : bool)
| VTime (ns : Z)
| VList (l : list string)
| VDict (d : dict string).

(** A column: the name of its dtype and its cells. *)
Record Series : Type := mkSeries { dtype : string; values : list cell }.

(** A frame: labelled columns, in order. *)
Definition DataFrame : Type := list (string * Series).

Definition columns (df : DataFrame) : list string := map fst df.

(** [df[label]]. *)
Definition getcol (df : DataFrame) (label : string) : result Series :=
  getitem df label.

(** [df[label] = s]. *)
Definition setcol (df : DataFrame) (label : string) (s : Series)
  : DataFrame :=
  dict_set df label s.

(** [s[mask]] for a boolean mask. *)
Fixpoint mask_select {A} (l : list A) (mask : list bool) : list A :=
  match l, mask with
  | x :: l', b :: mask' =>
      if b then x :: mask_select l' mask' else mask_select l' mask'
  | _, _ => []
  end.

(** [df[mask]]: the rows at which the mask holds. *)
Definition select_rows (df : DataFrame) (mask : list bool) : DataFrame :=
  map (fun lc => (fst lc,
                  mkSeries (dtype (snd lc))
                           (mask_select (values (snd lc)) mask))) df.

Definition nrows (df : DataFrame) : nat :=
  match df with
  | [] => 0
  | (_, s) :: _ => List.length (values s)
  end.

(** [df.to_dict(orient='records')]: one dict per row. *)
Definition to_dict_records (df : DataFrame) : list (dict cell) :=
  map (fun i =>
         fold_left (fun d lc => dict_set d (fst lc) (nth i (values (snd lc)) NA))
                   df [])
      (seq 0 (nrows df)).

(** The [.str] accessor: the strings of a column of strings.  It is not
    available (AttributeError) on a column with other cells. *)
Fixpoint str_accessor (l : list cell) : result (list string) :=
  match l with
  | [] => Ok []
  | VStr s :: l' => r <- str_accessor l' ;; Ok (s :: r)
  | _ :: _ => Raise AttributeError
  end.

(** [drop_duplicates()]: the first occurrence of each value is kept. *)
Fixpoint drop_duplicates (l : list string) : list string :=
  match l with
  | [] => []
  | x :: l' => x :: filter (fun y => negb (String.eqb y x)) (drop_duplicates l')
  end.

(** [mask.sum()]. *)
Definition mask_sum (mask : list bool) : nat := count_occ bool_dec mask true.

(** Order of [str]: by code point, shorter first on a common prefix. *)
Definition str_leb (a b : string) : bool :=
  match String_as_OT.compare a b with
  | Gt => false
  | _ => true
  end.

Fixpoint insert_sorted (x : string) (l : list string) : list string :=
  match l with
  | [] => [x]
  | y :: l' => if str_leb x y then x :: y :: l' else y :: insert_sorted x l'
  end.

(** [sort_values()] on strings, ascending. *)
Definition sort_values (l : list string) : list string :=
  fold_right insert_sorted [] l.

(** [pd.Series(l).isin([x]).sum()]. *)
Definition isin_sum (l : list string) (x : string) : nat :=
  mask_sum (map (fun y => String.eqb y x) l).

(** *** dtypes *)

(** The nullable integer dtypes, by name: signedness and width. *)
Definition nullable_int_dtype (name : string) : option (bool * Z) :=
  if String.eqb name "Int8" then Some (true, 8%Z)
  else if String.eqb name "Int16" then Some (true, 16%Z)
  else if String.eqb name "Int32" then Some (true, 32%Z)
  else if String.eqb name "Int64" then Some (true, 64%Z)
  else if String.eqb name "UInt8" then Some (false, 8%Z)
  else if String.eqb name "UInt16" then Some (false, 16%Z)
  else if String.eqb name "UInt32" then Some (false, 32%Z)
  else if String.eqb name "UInt64" then Some (false, 64%Z)
  else None.

Definition in_range (signed : bool) (bits z : Z) : bool :=
  if signed then ((- 2 ^ (bits - 1) <=? z) && (z <? 2 ^ (bits - 1)))%Z
  else ((0 <=? z) && (z <? 2 ^ bits))%Z.

(** A cell a nullable integer column of that kind holds as it is. *)
Definition int_or_na (signed : bool) (bits : Z) (c : cell) : bool :=
  match c with
  | NA => true
  | VInt z => in_range signed bits z
  | _ => false
  end.

(** A cell a string column holds as it is. *)
Definition str_or_na (c : cell) : bool :=
  match c with
  | NA => true
  | VStr _ => true
  | _ => false
  end.

End Pandas.
Import Pandas.

(** ** The metadata document and the client object *)

(** An entry of [servers]: its keys ['url'] and ['description']. *)
Record Server : Type := mkServer {
  server_url : string;
  server_description : string
}.

(** A property of a schema: its key ['format']. *)
Record Property : Type := mkProperty { format : string }.

(** An entry of [components.schemas]: its key ['properties']. *)
Record Schema : Type := mkSchema { properties : dict Property }.

(** The OpenAPI metadata document, as far as the program reads it: the
    descriptors under [paths] are never read, only their keys. *)
Record MetadataDocument : Type := mkMetadata {
  servers : list Server;
  paths : dict unit;
  components_schemas : dict Schema
}.

(** The attributes of an [OpenFEMA] object. *)
Record OpenFEMA : Type := mkOpenFEMA {
  openapi_metadata : MetadataDocument;
  url : string;
  df_metadata_dataset : DataFrame
}.

(** An atomic filter [(column, op, val)] and a sort key [(column, ascending)]. *)
Definition filter_atom : Type := (string * string * cell)%type.
Definition sort_key : Type := (string * bool)%type.

(** What lies outside the class: file system, parsers, readers, the pandas
    casts that are not modelled here, and [generate_url], which the class
    imports from [pyOpenFEMA.api_url_generator] and which may return a URL
    or raise. *)
Record External : Type := mkExternal {
  (** [fs.open(url)], which gives a file, and [file.read()] *)
  fs_open : string -> result string;
  file_read : string -> result string;
  json_loads : string -> result MetadataDocument;
  yaml_safe_load : string -> result MetadataDocument;
  pd_read_parquet : string -> result DataFrame;
  pd_read_csv : string -> result DataFrame;
  pd_read_json : string -> result DataFrame;
  gpd_read_file : string -> result DataFrame;
  (** [json.loads(format_str)['format']] *)
  json_loads_format : string -> result string;
  generate_url :
    cell -> dict string -> option string -> option (list string) ->
    option (list (list filter_atom)) -> option (list sort_key) ->
    option Z -> option Z -> result string;
  pd_to_datetime : Series -> result Series;
  (** [Series.astype(name)] for the dtypes and cells not modelled below *)
  astype_other : string -> Series -> result Series;
  (** how an f-string renders a value that is not an int, str or bool *)
  format_other : cell -> string
}.

(** [for x in l: ...] collecting results, stopping at the first exception. *)
Fixpoint traverse {A B} (f : A -> result B) (l : list A) : result (list B) :=
  match l with
  | [] => Ok []
  | x :: l' => y <- f x ;; r <- traverse f l' ;; Ok (y :: r)
  end.

(** The characters of a string, each as a string. *)
Fixpoint chars (s : string) : list string :=
  match s with
  | EmptyString => []
  | String c s' => String c EmptyString :: chars s'
  end.

(** Iterating over a value. *)
Definition iter_cell (c : cell) : result (list string) :=
  match c with
  | VList l => Ok l
  | VStr s => Ok (chars s)
  | VDict d => Ok (keys d)
  | _ => Raise TypeError
  end.

(** How an f-string renders an optional string. *)
Definition format_opt (o : option string) : string :=
  match o with
  | Some s => s
  | None => "None"
  end.

(** The cast a declared type stands for: the branches of the two loops of
    [_set_dataset_dtype] (lines 347-354 and 365-368), as one rule. *)
Inductive coercion : Type :=
| ToDatetime
| AsType (name : string).

Definition coercion_of (parse_dates : bool) (dtype : string) : coercion :=
  if contains "date" dtype then
    if parse_dates then ToDatetime else AsType "string"
  else if contains "int" dtype then AsType (capitalize dtype)
  else AsType dtype.

(** The preference order of [read_dataset] (lines 244-252). *)
Definition select_file_format (file_formats : list string)
  (file_format : option string) : option string :=
  match file_format with
  | None =>
      if existsb (String.eqb "geojson") file_formats then Some "geojson"
      else if existsb (String.eqb "parquet") file_formats then Some "parquet"
      else if existsb (String.eqb "csv") file_formats then Some "csv"
      else if existsb (String.eqb "jsona") file_formats then Some "jsona"
      else None
  | Some f => Some f
  end.

(** The restriction of the dtypes to the requested columns (lines 272-273). *)
Definition limit_columns (column_dtypes : dict string)
  (columns : option (list string)) : dict string :=
  match columns with
  | Some (c :: cs) =>
      dict_comprehension (fun _ dtype => dtype)
        (filter (fun kv => existsb (String.eqb (fst kv)) (c :: cs)) column_dtypes)
  | _ => column_dtypes
  end.

Section Program.

Variable ext : External.

Definition format_value (c : cell) : string :=
  match c with
  | VInt z => str_int z
  | VStr s => s
  | VBool true => "True"
  | VBool false => "False"
  | _ => format_other ext c
  end.

(** [Series.astype(name)]: to ["string"] with text and missing cells, and
    to a nullable integer dtype with integers of its range and missing
    cells, the cells stay as they are; every other cast is pandas' own. *)
Definition astype_series (name : string) (s : Series) : result Series :=
  if String.eqb name "string" then
    if forallb str_or_na (values s) then Ok (mkSeries "string" (values s))
    else astype_other ext name s
  else
    match nullable_int_dtype name with
    | Some (signed, bits) =>
        if forallb (int_or_na signed bits) (values s)
        then Ok (mkSeries name (values s))
        else astype_other ext name s
    | None => astype_other ext name s
    end.

(** [DataFrame.astype(dtypes)] with a dict: a key that is no column is a
    KeyError; the columns named by the dict are cast, the others kept. *)
Definition astype (df : DataFrame) (dtypes : dict string)
  : result DataFrame :=
  match find (fun col_name => negb (existsb (String.eqb col_name) (columns df)))
             (keys dtypes) with
  | Some col_name => Raise (KeyError col_name)
  | None =>
      traverse (fun lc =>
                  match dict_get dtypes (fst lc) with
                  | Some cdt => s <- astype_series cdt (snd lc) ;; Ok (fst lc, s)
                  | None => Ok lc
                  end) df
  end.

(** [OpenFEMA.__init__] *)
Definition __init__ (openapi_metadata_endpoint file_format : string)
  : result OpenFEMA :=
  let valid_formats := ["json"; "yaml"] in
  if negb (existsb (String.eqb file_format) valid_formats) then
    Raise (ValueError ("The specified format of '" +++ file_format +++
                       "' for the metadata endpoint is not available. " +++
                       "Acceptable formats are 'json' or 'yaml'"))
  else
    match fs_open ext (openapi_metadata_endpoint +++ "." +++ file_format) with
    | Raise (FileNotFoundError _) =>
        Raise (FileNotFoundError
                 ("The OpenFEMA OpenAPI metadata endpoint of " +++
                  openapi_metadata_endpoint +++ "." +++ file_format +++
                  " is not valid. Double check " +++
                  "the endpoint at https://www.fema.gov/about/openfema/api."))
    | Raise e => Raise e
    | Ok openapi_metadata_file =>
        openapi_metadata <-
          (if String.eqb file_format "json"
           then text <- file_read ext openapi_metadata_file ;; json_loads ext text
           else text <- file_read ext openapi_metadata_file ;;
                yaml_safe_load ext text) ;;
        url <- item0 (map server_url
                        (filter (fun server_dict =>
                                   String.eqb (server_description server_dict)
                                              "Production")
                                (servers openapi_metadata))) ;;
        let datasets_keys := keys (paths openapi_metadata) in
        let metadata_dataset_key := filter (contains "DataSets") datasets_keys in
        if negb (List.length metadata_dataset_key =? 1)%nat then
          Raise (NotImplementedError
                   ("Multiple possible options found for the " +++
                    "metadata for the OpenFEMA API data sets.")
                   metadata_dataset_key)
        else
          metadata_dataset_key <- item0 metadata_dataset_key ;;
          match pd_read_parquet ext (url +++ metadata_dataset_key +++ ".parquet") with
          | Raise (ValueError _) =>
              Raise (NotImplementedError
                       ("The parquet file containing the metadata for the " +++
                        "OpenFEMA API data sets no longer exists.") [])
          | Raise e => Raise e
          | Ok df => Ok (mkOpenFEMA openapi_metadata url df)
          end
    end.

Variable self : OpenFEMA.

(** [OpenFEMA._validate_metadata_dataset_list] *)
Definition _validate_metadata_dataset_list : result unit :=
  if negb (existsb (contains "name") (columns (df_metadata_dataset self))) then
    Raise (NotImplementedError
             ("The column indicating the names of the datasets in " +++
              "the metadata for the OpenFEMA API data sets has changed.") [])
  else Ok tt.

(** [OpenFEMA.list_datasets] *)
Definition list_datasets : M (list string) :=
  lift _validate_metadata_dataset_list ;;;
  name_column <~ lift (getcol (df_metadata_dataset self) "name") ;;
  names <~ lift (str_accessor (values name_column)) ;;
  let dataset_names := drop_duplicates names in
  let metadata_datasets := map (contains "DataSet") dataset_names in
  if (3 <? mask_sum metadata_datasets)%nat then
    let metadata_datasets_names := mask_select dataset_names metadata_datasets in
    warn (UserWarning ("Non-metadata datasets may have been dropped from the " +++
                       "dataset list. Currently dropped metadata datasets: ")
                      metadata_datasets_names) ;;;
    ret (sort_values dataset_names)
  else
    let dataset_names := mask_select dataset_names (map negb metadata_datasets) in
    ret (sort_values dataset_names).

(** [OpenFEMA._check_if_dataset_exists] *)
Definition _check_if_dataset_exists (dataset : string) : M unit :=
  lift _validate_metadata_dataset_list ;;;
  datasets <~ list_datasets ;;
  if negb (isin_sum datasets dataset =? 1)%nat then
    raise (ValueError ("The specified dataset of " +++ dataset +++
                       " was not found in the dataset list. " +++
                       "Please ensure the dataset selected is correct."))
  else ret tt.

(** [OpenFEMA._get_dataset_dtype] *)
Definition _get_dataset_dtype (dataset : string) (version : cell)
  : result (dict string) :=
  let dataset_w_version := "v" +++ format_value version +++ "-" +++ dataset in
  let openapi_dataset_metadata := components_schemas (openapi_metadata self) in
  let dataset_names := keys openapi_dataset_metadata in
  let dataset_openapi_name :=
    filter (fun dataset_name => String.eqb dataset_w_version dataset_name)
           dataset_names in
  if negb (List.length dataset_openapi_name =? 1)%nat then
    Raise (NotImplementedError
             ("Multiple possible options found for the " +++
              "dataset in the OpenFEMA API metadata.")
             dataset_openapi_name)
  else
    dataset_openapi_name <- item0 dataset_openapi_name ;;
    entry <- getitem openapi_dataset_metadata dataset_openapi_name ;;
    let column_metadata := properties entry in
    Ok (dict_comprehension (fun key value => format value) column_metadata).

(** [OpenFEMA.dataset_info] *)
Definition dataset_info (dataset : string) : M (dict cell) :=
  lift _validate_metadata_dataset_list ;;;
  _check_if_dataset_exists dataset ;;;
  dataset_names <~ lift (getcol (df_metadata_dataset self) "name") ;;
  let mask := map (fun c => match c with
                            | VStr s => String.eqb s dataset
                            | _ => false
                            end) (values dataset_names) in
  dataset_dict <~
    lift (item0 (to_dict_records (select_rows (df_metadata_dataset self) mask))) ;;
  version <~ lift (getitem dataset_dict "version") ;;
  column_dtypes <~ lift (_get_dataset_dtype dataset version) ;;
  ret (dict_set dataset_dict "columns" (VDict column_dtypes)).

(** [OpenFEMA._set_dataset_dtype] *)
Definition _set_dataset_dtype (df_dataset : DataFrame)
  (column_dtypes : dict string) (parse_dates : bool) : result DataFrame :=
  if parse_dates then
    let '(non_datetime_columns, datetime_columns) :=
      fold_left
        (fun acc cd =>
           let '(non_datetime_columns, datetime_columns) := acc in
           let '(column, dtype) := cd in
           if contains "date" dtype then
             (non_datetime_columns, datetime_columns ++ [column])
           else if contains "int" dtype then
             (dict_set non_datetime_columns column (capitalize dtype),
              datetime_columns)
           else
             (dict_set non_datetime_columns column dtype, datetime_columns))
        column_dtypes ([], []) in
    df_dataset <- astype df_dataset non_datetime_columns ;;
    fold_left
      (fun acc datetime_column =>
         df_dataset <- acc ;;
         column <- getcol df_dataset datetime_column ;;
         parsed <- pd_to_datetime ext column ;;
         Ok (setcol df_dataset datetime_column parsed))
      datetime_columns (Ok df_dataset)
  else
    let column_dtypes :=
      fold_left
        (fun column_dtypes cd =>
           let '(column, dtype) := cd in
           if contains "date" dtype then dict_set column_dtypes column "string"
           else if contains "int" dtype then
             dict_set column_dtypes column (capitalize dtype)
           else column_dtypes)
        column_dtypes column_dtypes in
    astype df_dataset column_dtypes.

(** The reader of each format (lines 259-268). *)
Definition read_url (file_format : option string) (url : string)
  : result DataFrame :=
  match file_format with
  | Some f =>
      if String.eqb f "geojson" then gpd_read_file ext url
      else if String.eqb f "parquet" then pd_read_parquet ext url
      else if String.eqb f "csv" then pd_read_csv ext url
      else if String.eqb f "jsona" then pd_read_json ext url
      else Raise (ValueError ("The file format of " +++ f +++ " is not supported."))
  | None =>
      Raise (ValueError ("The file format of " +++ format_opt None +++
                         " is not supported."))
  end.

(** [OpenFEMA.read_dataset] *)
Definition read_dataset (dataset : string) (columns : option (list string))
  (filters : option (list (list filter_atom)))
  (sort_by : option (list sort_key)) (top skip : option Z)
  (parse_dates : bool) (file_format : option string) : M DataFrame :=
  info <~ dataset_info dataset ;;
  file_formats <~
    lift (distribution <- getitem info "distribution" ;;
          format_strs <- iter_cell distribution ;;
          traverse (json_loads_format ext) format_strs) ;;
  info <~ dataset_info dataset ;;
  web_service_url <~ lift (getitem info "webService") ;;
  info <~ dataset_info dataset ;;
  version <~ lift (getitem info "version") ;;
  column_dtypes <~ lift (_get_dataset_dtype dataset version) ;;
  let file_format := select_file_format file_formats file_format in
  url <~ lift (generate_url ext web_service_url column_dtypes file_format
                 columns filters sort_by top skip) ;;
  df_dataset <~ lift (read_url file_format url) ;;
  let column_dtypes := limit_columns column_dtypes columns in
  lift (_set_dataset_dtype df_dataset column_dtypes parse_dates).

End Program.

(** ** Notions used in the statements *)

(** The order of [sort_values], as a relation. *)
Definition str_le (a b : string) : Prop := str_leb a b = true.

(** What [list_datasets] computes from the strings of the [name] column. *)
Definition listed (names : list string) : M (list string) :=
  let dataset_names := drop_duplicates names in
  let internal := filter (contains "DataSet") dataset_names in
  if (3 <? List.length internal)%nat then
    ([UserWarning ("Non-metadata datasets may have been dropped from the " +++
                   "dataset list. Currently dropped metadata datasets: ")
                  internal],
     Ok (sort_values dataset_names))
  else
    ([], Ok (sort_values
               (filter (fun n => negb (contains "DataSet" n)) dataset_names))).

(** The formats [read_dataset] has a reader for, in its order of
    preference. *)
Definition readers : list string := ["geojson"; "parquet"; "csv"; "jsona"].

(** One cast, carried out. *)
Definition coerce (ext : External) (c : coercion) (s : Series) : result Series :=
  match c with
  | ToDatetime => pd_to_datetime ext s
  | AsType name => astype_series ext name s
  end.

(** The coercion of one column as the spec words it: a column named in
    the type map is cast by the rule of its declared type, any other
    column passes through. *)
Definition coerce_column (ext : External) (parse_dates : bool)
  (column_dtypes : dict string) (lc : string * Series)
  : result (string * Series) :=
  match dict_get column_dtypes (fst lc) with
  | Some dtype =>
      s <- coerce ext (coercion_of parse_dates dtype) (snd lc) ;; Ok (fst lc, s)
  | None => Ok lc
  end.

(** The same as a relation between a column and what it becomes. *)
Definition coerced (ext : External) (parse_dates : bool)
  (column_dtypes : dict string) (before after : string * Series) : Prop :=
  fst after = fst before
  /\ match dict_get column_dtypes (fst before) with
     | Some dtype =>
         coerce ext (coercion_of parse_dates dtype) (snd before) = Ok (snd after)
     | None => snd after = snd before
     end.

(** The dtype name [astype] is given for a declared type that is no date. *)
Definition astype_name (dtype : string) : string :=
  if contains "int" dtype then capitalize dtype else dtype.

(** The parsing of one column when its label is among [labels]. *)
Definition parse_column (ext : External) (labels : list string)
  (lc : string * Series) : result (string * Series) :=
  if existsb (String.eqb (fst lc)) labels
  then parsed <- pd_to_datetime ext (snd lc) ;; Ok (fst lc, parsed)
  else Ok lc.

(** A frame whose columns all have the length of the first. *)
Definition rectangular (df : DataFrame) : Prop :=
  forall label s, In (label, s) df -> List.length (values s) = nrows df.

(** The message of the ValueError of [_check_if_dataset_exists]. *)
Definition not_found (dataset : string) : exn :=
  ValueError ("The specified dataset of " +++ dataset +++
              " was not found in the dataset list. " +++
              "Please ensure the dataset selected is correct.").

(** The record [dataset_info] selects: the first row of the catalogue
    whose name is [dataset] (lines 165-169). *)
Definition first_record (self : OpenFEMA) (dataset : string)
  : result (dict cell) :=
  dataset_names <- getcol (df_metadata_dataset self) "name" ;;
  item0 (to_dict_records
           (select_rows (df_metadata_dataset self)
              (map (fun c => match c with
                             | VStr s => String.eqb s dataset
                             | _ => false
                             end) (values dataset_names)))).

(** The position of the first [true] of a mask. *)
Fixpoint first_true (mask : list bool) : nat :=
  match mask with
  | [] => 0
  | true :: _ => 0
  | false :: mask' => S (first_true mask')
  end.

(** The position of the first row of the catalogue named [dataset]. *)
Definition first_index (dataset : string) (names : list string) : nat :=
  first_true (map (fun n => String.eqb n dataset) names).

(** The NotImplementedError of [_validate_metadata_dataset_list]. *)
Definition names_column_changed : exn :=
  NotImplementedError
    ("The column indicating the names of the datasets in " +++
     "the metadata for the OpenFEMA API data sets has changed.") [].

(** The test of the server entries in [__init__] (line 66). *)
Definition is_production (server_dict : Server) : bool :=
  String.eqb (server_description server_dict) "Production".

(** ** A small remote, to run the program on *)

Module Demo.

(** A date parser that takes epoch integers and rejects text. *)
Definition to_datetime (s : Series) : result Series :=
  if forallb (fun c => match c with
                       | NA | VInt _ | VTime _ => true
                       | _ => false
                       end) (values s)
  then Ok (mkSeries "datetime64[ns]"
             (map (fun c => match c with
                            | VInt z => VTime z
                            | c' => c'
                            end) (values s)))
  else Raise (ValueError "Unknown datetime string format").

(** A remote that serves the document [doc], the catalogue [catalog] at
    the catalogue endpoint and the table [data] everywhere else. *)
Definition remote (doc : MetadataDocument) (catalog data : DataFrame)
  : External :=
  {| fs_open := fun u => Ok u;
     file_read := fun _ => Ok "";
     json_loads := fun _ => Ok doc;
     yaml_safe_load := fun _ => Ok doc;
     pd_read_parquet := fun u => if contains "DataSets" u then Ok catalog else Ok data;
     pd_read_csv := fun _ => Ok data;
     pd_read_json := fun _ => Ok data;
     gpd_read_file := fun _ => Ok data;
     json_loads_format := fun s => Ok s;
     generate_url := fun ws _ fmt _ _ _ _ _ =>
       Ok (match ws with VStr s => s | _ => "" end +++ "." +++ format_opt fmt);
     pd_to_datetime := to_datetime;
     astype_other := fun _ _ => Raise TypeError;
     format_other := fun _ => "None" |}.

Definition production : Server :=
  mkServer "https://www.fema.gov/api/open" "Production".

Definition declarations : Schema :=
  mkSchema [("state", mkProperty "string");
            ("declarationDate", mkProperty "date-time");
            ("disasterNumber", mkProperty "int32")].

Definition doc : MetadataDocument :=
  mkMetadata [production]
             [("/v1/OpenFemaDataSets", tt); ("/v2/DisasterDeclarations", tt)]
             [("v2-DisasterDeclarations", declarations)].

Definition object_column (l : list cell) : Series := mkSeries "object" l.

Definition catalog : DataFrame :=
  [("name", object_column [VStr "OpenFemaDataSets"; VStr "DisasterDeclarations";
                           VStr "OpenFemaDataSetFields"; VStr "DisasterDeclarations"]);
   ("version", mkSeries "int64" [VInt 1; VInt 2; VInt 1; VInt 1]);
   ("distribution", object_column [VList ["csv"]; VList ["csv"; "parquet"];
                                   VList ["csv"]; VList ["csv"]]);
   ("webService", object_column
      [VStr "https://www.fema.gov/api/open/v1/OpenFemaDataSets";
       VStr "https://www.fema.gov/api/open/v2/DisasterDeclarations";
       VStr "https://www.fema.gov/api/open/v1/OpenFemaDataSetFields";
       VStr "https://www.fema.gov/api/open/v1/DisasterDeclarations"])].

Definition data : DataFrame :=
  [("state", object_column [VStr "CA"; VStr "TX"]);
   ("declarationDate", mkSeries "int64" [VInt 0; NA]);
   ("disasterNumber", mkSeries "float64" [VInt 4407; NA])].

Definition ext : External := remote doc catalog data.

Definition client : OpenFEMA :=
  mkOpenFEMA doc "https://www.fema.gov/api/open" catalog.

(** A catalogue that lists two versions of each of its own two tables. *)
Definition catalog_versions : DataFrame :=
  [("name", object_column [VStr "OpenFemaDataSets"; VStr "OpenFemaDataSets";
                           VStr "OpenFemaDataSetFields";
                           VStr "OpenFemaDataSetFields";
                           VStr "DisasterDeclarations"]);
   ("version", mkSeries "int64" [VInt 1; VInt 2; VInt 1; VInt 2; VInt 2])].

Definition client_versions : OpenFEMA :=
  mkOpenFEMA doc "https://www.fema.gov/api/open" catalog_versions.

(** A catalogue with four distinct names that contain ["DataSet"]. *)
Definition catalog_many : DataFrame :=
  [("name", object_column [VStr "OpenFemaDataSets"; VStr "OpenFemaDataSetFields";
                           VStr "DataSetA"; VStr "DataSetB";
                           VStr "DisasterDeclarations"])].

Definition client_many : OpenFEMA :=
  mkOpenFEMA doc "https://www.fema.gov/api/open" catalog_many.

(** A catalogue whose names are under the label ["datasetname"]. *)
Definition catalog_datasetname : DataFrame :=
  [("datasetname", object_column [VStr "DisasterDeclarations"]);
   ("version", mkSeries "int64" [VInt 2])].

Definition client_datasetname : OpenFEMA :=
  mkOpenFEMA doc "https://www.fema.gov/api/open" catalog_datasetname.

(** Documents with two servers, and with no server, described as
    ["Production"]. *)
Definition doc_two_production : MetadataDocument :=
  mkMetadata [mkServer "https://www.fema.gov/api/open" "Production";
              mkServer "https://mirror.fema.gov/api/open" "Production"]
             (paths doc) (components_schemas doc).

Definition doc_no_production : MetadataDocument :=
  mkMetadata [mkServer "https://staging.fema.gov/api/open" "Staging"]
             (paths doc) (components_schemas doc).

(** The column types of the dataset, as the schema declares them. *)
Definition dtypes : dict string :=
  [("state", "string"); ("declarationDate", "date-time");
   ("disasterNumber", "int32")].

(** The dataset read with [columns=["state"]]. *)
Definition data_state : DataFrame :=
  [("state", object_column [VStr "CA"; VStr "TX"])].

(** The dataset with its dates as text, one of them no date at all. *)
Definition data_text : DataFrame :=
  [("state", object_column [VStr "CA"; VStr "TX"]);
   ("declarationDate", object_column [VStr "2018-13-45T00:00:00.000Z"; NA]);
   ("disasterNumber", mkSeries "float64" [VInt 4407; NA])].

(** A catalogue with a dataset that has no schema in [doc_drift], and
    one whose schema there declares no property. *)
Definition catalog_drift : DataFrame :=
  [("name", object_column [VStr "FimaNfipClaims"; VStr "HazardMitigationPlans"]);
   ("version", mkSeries "int64" [VInt 2; VInt 1])].

Definition doc_drift : MetadataDocument :=
  mkMetadata [production] (paths doc)
             [("v1-FimaNfipClaims", declarations);
              ("v1-HazardMitigationPlans", mkSchema [])].

Definition client_drift : OpenFEMA :=
  mkOpenFEMA doc_drift "https://www.fema.gov/api/open" catalog_drift.

(** A catalogue whose names are under the label ["title"]. *)
Definition client_untitled : OpenFEMA :=
  mkOpenFEMA doc "https://www.fema.gov/api/open"
             [("title", object_column [VStr "DisasterDeclarations"])].

(** The names of [catalog_versions], once each and in another order. *)
Definition client_shuffled : OpenFEMA :=
  mkOpenFEMA doc "https://www.fema.gov/api/open"
             [("name", object_column [VStr "DisasterDeclarations";
                                      VStr "OpenFemaDataSetFields";
                                      VStr "OpenFemaDataSets"])].

(** A document with two endpoints of the catalogue. *)
Definition doc_two_catalogs : MetadataDocument :=
  mkMetadata [production]
             [("/v1/OpenFemaDataSets", tt); ("/v2/OpenFemaDataSets", tt)]
             (components_schemas doc).

(** The remote [ext] with a reader of its own for each format: the
    parquet reader serves [data], the csv reader a table of one row, the
    json reader fails, the geojson reader serves an empty table. *)
Definition ext_by_format : External :=
  {| fs_open := fs_open ext;
     file_read := file_read ext;
     json_loads := json_loads ext;
     yaml_safe_load := yaml_safe_load ext;
     pd_read_parquet := pd_read_parquet ext;
     pd_read_csv := fun _ => Ok [("state", object_column [VStr "FL"])];
     pd_read_json := fun _ => Raise (OtherError "JSONDecodeError");
     gpd_read_file := fun _ => Ok [];
     json_loads_format := json_loads_format ext;
     generate_url := generate_url ext;
     pd_to_datetime := pd_to_datetime ext;
     astype_other := astype_other ext;
     format_other := format_other ext |}.

Definition endpoint : string :=
  "https://www.fema.gov/api/open/metadata/v3.0/OpenApi".

End Demo.

(** * Properties *)

Unset Implicit Arguments.

(** ** Running the program on the small remote *)

Example demo_init :
  __init__ Demo.ext Demo.endpoint "json"
  = Ok Demo.client.
Proof. reflexivity. Qed.

Example demo_list : list_datasets Demo.client = ([], Ok ["DisasterDeclarations"]).
Proof. reflexivity. Qed.

Example demo_schema_key :
  _get_dataset_dtype Demo.ext Demo.client "DisasterDeclarations" (VInt 2)
  = Ok [("state", "string"); ("declarationDate", "date-time");
        ("disasterNumber", "int32")].
Proof. reflexivity. Qed.

Example demo_capitalize : capitalize "int32" = "Int32".
Proof. reflexivity. Qed.

(** ** Lists, dicts and the monads *)

Section Lists.

Context {A : Type}.

Lemma mask_select_map (p : A -> bool) (l : list A) :
  mask_select l (map p l) = filter p l.
Proof.
  induction l as [|y l IH]; simpl; [reflexivity|].
  destruct (p y); now rewrite IH.
Qed.

Lemma mask_sum_map (p : A -> bool) (l : list A) :
  mask_sum (map p l) = List.length (filter p l).
Proof.
  unfold mask_sum.
  induction l as [|y l IH]; simpl; [reflexivity|].
  destruct (p y); simpl; rewrite IH; reflexivity.
Qed.

Lemma NoDup_filter (p : A -> bool) (l : list A) :
  NoDup l -> NoDup (filter p l).
Proof.
  induction 1 as [|x l Hx Hl IH]; simpl; [constructor|].
  destruct (p x); [constructor|]; auto.
  rewrite filter_In; tauto.
Qed.

End Lists.

Lemma filter_eqb_length (k : string) (l : list string) :
  List.length (filter (String.eqb k) l) = count_occ string_dec l k.
Proof.
  induction l as [|x l IH]; simpl; [reflexivity|].
  destruct (string_dec x k) as [->|Hne].
  - rewrite String.eqb_refl. simpl. congruence.
  - destruct (String.eqb_spec k x); [congruence|assumption].
Qed.

Lemma existsb_eqb_In (k : string) (l : list string) :
  existsb (String.eqb k) l = true <-> In k l.
Proof.
  rewrite existsb_exists; split.
  - intros (x & Hx & He). apply String.eqb_eq in He. now subst.
  - intros H; exists k; split; [assumption|apply String.eqb_refl].
Qed.

Section Dicts.

Context {V : Type}.

Lemma dict_get_In (d : dict V) (k : string) (v : V) :
  dict_get d k = Some v -> In (k, v) d.
Proof.
  induction d as [|[k' v'] d IH]; simpl; [discriminate|].
  destruct (String.eqb_spec k' k) as [->|Hne].
  - intros [= ->]; now left.
  - intros H; right; auto.
Qed.

Lemma dict_get_None (d : dict V) (k : string) :
  dict_get d k = None <-> ~ In k (keys d).
Proof.
  induction d as [|[k' v'] d IH]; simpl; [tauto|].
  destruct (String.eqb_spec k' k) as [->|Hne].
  - split; [discriminate|tauto].
  - rewrite IH; tauto.
Qed.

Lemma dict_get_keys (d : dict V) (k : string) :
  In k (keys d) -> exists v, dict_get d k = Some v.
Proof.
  intros H. destruct (dict_get d k) eqn:E; [eauto|].
  apply dict_get_None in E; tauto.
Qed.

Lemma dict_set_fresh (d : dict V) (k : string) (v : V) :
  ~ In k (keys d) -> dict_set d k v = d ++ [(k, v)].
Proof.
  induction d as [|[k' v'] d IH]; simpl; [reflexivity|].
  intros H. destruct (String.eqb_spec k' k) as [->|Hne]; [tauto|].
  rewrite IH; tauto.
Qed.

Lemma keys_dict_set (d : dict V) (k : string) (v : V) :
  In k (keys d) -> keys (dict_set d k v) = keys d.
Proof.
  induction d as [|[k' v'] d IH]; simpl; [tauto|].
  intros H. destruct (String.eqb_spec k' k) as [->|Hne]; simpl; [reflexivity|].
  f_equal. apply IH. destruct H; [congruence|assumption].
Qed.

Lemma dict_get_set_same (d : dict V) (k : string) (v : V) :
  dict_get (dict_set d k v) k = Some v.
Proof.
  induction d as [|[k' v'] d IH]; simpl.
  - now rewrite String.eqb_refl.
  - destruct (String.eqb_spec k' k) as [->|Hne]; simpl.
    + now rewrite String.eqb_refl.
    + destruct (String.eqb_spec k' k); [contradiction|assumption].
Qed.

End Dicts.

(** On a dict (distinct keys) a comprehension over the items keeps the
    keys and their order. *)
Lemma dict_comprehension_map {V W} (f : string -> V -> W) (d : dict V) :
  NoDup (keys d) ->
  dict_comprehension f d = map (fun kv => (fst kv, f (fst kv) (snd kv))) d.
Proof.
  unfold dict_comprehension.
  assert (G : forall (acc : dict W),
             NoDup (keys acc ++ keys d) ->
             fold_left (fun acc kv => dict_set acc (fst kv) (f (fst kv) (snd kv))) d acc
             = acc ++ map (fun kv => (fst kv, f (fst kv) (snd kv))) d).
  { induction d as [|[k v] d IH]; intros acc Hnd; simpl.
    - now rewrite app_nil_r.
    - simpl in Hnd. rewrite dict_set_fresh.
      + rewrite IH.
        * now rewrite <- app_assoc.
        * unfold keys in *. rewrite map_app, <- app_assoc. exact Hnd.
      + apply NoDup_remove_2 in Hnd. rewrite in_app_iff in Hnd. tauto. }
  intros Hnd. now rewrite G.
Qed.

Lemma mbind_lift_Ok {A B} (a : A) (k : A -> M B) :
  mbind (lift (Ok a)) k = k a.
Proof. unfold mbind, lift. simpl. now destruct (k a). Qed.

(** ** Schema resolution *)

Section SchemaResolution.

Variable ext : External.
Variable self : OpenFEMA.

Lemma filter_eqb_eq (k x : string) (l : list string) :
  In x (filter (String.eqb k) l) -> x = k.
Proof.
  rewrite filter_In. intros [_ H]. symmetry. now apply String.eqb_eq.
Qed.

(** C4. [_get_dataset_dtype dataset version] raises NotImplementedError
    exactly when the number of keys of [components.schemas] equal to
    ["v{version}-{dataset}"] is not one.  When it is one, the entry under
    that key is found and the result maps each of its property names to
    the declared [format], in the declared order. *)
Theorem get_dataset_dtype_exactly_one (dataset : string) (version : cell) :
  let key := "v" +++ format_value ext version +++ "-" +++ dataset in
  let schemas := components_schemas (openapi_metadata self) in
  let matches := count_occ string_dec (keys schemas) key in
  (matches <> 1 <->
   exists msg options,
     _get_dataset_dtype ext self dataset version
     = Raise (NotImplementedError msg options))
  /\ (matches = 1 ->
      exists entry,
        In (key, entry) schemas
        /\ (NoDup (keys (properties entry)) ->
            _get_dataset_dtype ext self dataset version
            = Ok (map (fun kv => (fst kv, format (snd kv))) (properties entry)))).
Proof.
  intros key schemas matches.
  unfold _get_dataset_dtype.
  fold key. fold schemas.
  change (fun dataset_name : string => String.eqb key dataset_name)
    with (String.eqb key).
  rewrite (filter_eqb_length key (keys schemas)). fold matches.
  destruct (Nat.eqb_spec matches 1) as [E|E]; cbn [negb].
  - assert (Hk : In key (keys schemas)).
    { apply (count_occ_In string_dec). fold matches. lia. }
    destruct (dict_get_keys schemas key Hk) as [entry Hentry].
    assert (H0 : item0 (filter (String.eqb key) (keys schemas)) = Ok key).
    { destruct (filter (String.eqb key) (keys schemas)) as [|x r] eqn:F.
      - exfalso. apply (f_equal (@List.length string)) in F.
        rewrite filter_eqb_length in F. fold matches in F. simpl in F. lia.
      - simpl. f_equal. apply (filter_eqb_eq key x (keys schemas)).
        rewrite F. now left. }
    rewrite H0. cbn [bind]. unfold getitem. rewrite Hentry. cbn [bind].
    split.
    + split; [tauto|]. intros (msg & options & H). discriminate.
    + intros _. exists entry. split.
      * now apply dict_get_In.
      * intros Hnd. f_equal. now apply dict_comprehension_map.
  - split.
    + split; [eauto|tauto].
    + tauto.
Qed.

End SchemaResolution.

Lemma get_dataset_dtype_exactly_one_witness :
  _get_dataset_dtype Demo.ext Demo.client "DisasterDeclarations" (VInt 2)
  = Ok [("state", "string"); ("declarationDate", "date-time");
        ("disasterNumber", "int32")].
Proof.
  destruct (get_dataset_dtype_exactly_one Demo.ext Demo.client
              "DisasterDeclarations" (VInt 2)) as [_ H].
  destruct (H eq_refl) as (entry & Hin & Hok).
  destruct Hin as [Hin|[]].
  injection Hin as <-.
  apply Hok. simpl. repeat constructor; simpl; intuition discriminate.
Defined.

(** ** Ordering and sorting of names *)

Lemma str_le_total (a b : string) : str_le a b \/ str_le b a.
Proof.
  unfold str_le, str_leb.
  destruct (String_as_OT.compare_spec a b) as [H|H|H]; auto.
  right. destruct (String_as_OT.compare_spec b a) as [H1|H1|H1]; auto.
  exfalso. apply (StrictOrder_Irreflexive a). now transitivity b.
Qed.

Lemma str_le_lt_eq (a b : string) :
  str_le a b <-> String_as_OT.lt a b \/ a = b.
Proof.
  unfold str_le, str_leb.
  destruct (String_as_OT.compare_spec a b) as [H|H|H].
  - tauto.
  - tauto.
  - split; [discriminate|]. intros [H1| ->]; exfalso.
    + apply (StrictOrder_Irreflexive a). now transitivity b.
    + now apply (StrictOrder_Irreflexive b).
Qed.

Lemma str_le_trans (a b c : string) : str_le a b -> str_le b c -> str_le a c.
Proof.
  rewrite !str_le_lt_eq. intros [H| ->] [H'| ->]; auto.
  left. now transitivity b.
Qed.

Lemma insert_sorted_perm (x : string) (l : list string) :
  Permutation (insert_sorted x l) (x :: l).
Proof.
  induction l as [|y l IH]; simpl; [reflexivity|].
  destruct (str_leb x y); [reflexivity|].
  rewrite IH. apply perm_swap.
Qed.

Lemma insert_sorted_sorted (x : string) (l : list string) :
  StronglySorted str_le l -> StronglySorted str_le (insert_sorted x l).
Proof.
  induction 1 as [|y l Hl IH Hy]; simpl.
  - repeat constructor.
  - destruct (str_leb x y) eqn:E.
    + constructor; [now constructor|].
      constructor; [exact E|].
      eapply Forall_impl; [|exact Hy]. intros z. now apply str_le_trans.
    + constructor; [exact IH|].
      apply (Permutation_Forall (Permutation_sym (insert_sorted_perm x l))).
      constructor; [|exact Hy].
      destruct (str_le_total x y) as [H|H]; [|exact H].
      unfold str_le in H. congruence.
Qed.

Lemma sort_values_perm (l : list string) : Permutation (sort_values l) l.
Proof.
  induction l as [|x l IH]; simpl; [reflexivity|].
  rewrite insert_sorted_perm. now constructor.
Qed.

Lemma sort_values_sorted (l : list string) : StronglySorted str_le (sort_values l).
Proof.
  induction l as [|x l IH]; simpl; [constructor|].
  now apply insert_sorted_sorted.
Qed.

Lemma sort_values_In (l : list string) (x : string) :
  In x (sort_values l) <-> In x l.
Proof.
  split; apply Permutation_in; [|symmetry]; apply sort_values_perm.
Qed.

(** Without repetition, ascending is strictly ascending. *)
Lemma sorted_nodup_strict (l : list string) :
  StronglySorted str_le l -> NoDup l -> StronglySorted String_as_OT.lt l.
Proof.
  induction 1 as [|x l Hl IH Hx]; intros Hnd; [constructor|].
  inversion Hnd as [|? ? Hin Hnd']; subst.
  constructor; [auto|].
  rewrite Forall_forall in *. intros y Hy.
  destruct (proj1 (str_le_lt_eq x y) (Hx y Hy)) as [H| ->]; [exact H|tauto].
Qed.

Lemma drop_duplicates_In (l : list string) (x : string) :
  In x (drop_duplicates l) <-> In x l.
Proof.
  induction l as [|y l IH]; simpl; [tauto|].
  rewrite filter_In, IH.
  destruct (String.eqb_spec x y) as [->|Hne]; simpl; intuition congruence.
Qed.

Lemma drop_duplicates_NoDup (l : list string) : NoDup (drop_duplicates l).
Proof.
  induction l as [|y l IH]; simpl; constructor.
  - rewrite filter_In. rewrite String.eqb_refl. simpl. intuition discriminate.
  - now apply NoDup_filter.
Qed.

(** ** The list of datasets *)

Section ListDatasets.

Variable self : OpenFEMA.

Lemma getcol_validates (label : string) (s : Series) :
  getcol (df_metadata_dataset self) label = Ok s ->
  In label (columns (df_metadata_dataset self)).
Proof.
  unfold getcol, getitem.
  destruct (dict_get _ label) eqn:E; [|discriminate].
  intros _. apply dict_get_In in E.
  change label with (fst (label, s0)). now apply in_map.
Qed.

Lemma validate_name_column (s : Series) :
  getcol (df_metadata_dataset self) "name" = Ok s ->
  _validate_metadata_dataset_list self = Ok tt.
Proof.
  intros H. apply getcol_validates in H.
  unfold _validate_metadata_dataset_list.
  replace (existsb _ _) with true; [reflexivity|].
  symmetry. apply existsb_exists. exists "name". now split.
Qed.

Lemma list_datasets_names (s : Series) (names : list string) :
  getcol (df_metadata_dataset self) "name" = Ok s ->
  str_accessor (values s) = Ok names ->
  list_datasets self = listed names.
Proof.
  intros Hs Hn. unfold list_datasets, listed.
  rewrite (validate_name_column s Hs), mbind_lift_Ok.
  rewrite Hs, mbind_lift_Ok, Hn, mbind_lift_Ok.
  rewrite mask_sum_map, map_map, !mask_select_map.
  destruct (3 <? _)%nat; reflexivity.
Qed.

Lemma list_datasets_returns (w : list warning) (l : list string) :
  list_datasets self = (w, Ok l) ->
  exists s names,
    getcol (df_metadata_dataset self) "name" = Ok s
    /\ str_accessor (values s) = Ok names
    /\ listed names = (w, Ok l).
Proof.
  intros H. pose proof H as H'. revert H'. unfold list_datasets at 1.
  destruct (_validate_metadata_dataset_list self) as [[]|e];
    [|simpl; discriminate].
  rewrite mbind_lift_Ok.
  destruct (getcol (df_metadata_dataset self) "name") as [s|e] eqn:Hs;
    [|simpl; discriminate].
  rewrite mbind_lift_Ok.
  destruct (str_accessor (values s)) as [names|e] eqn:Hn;
    [|simpl; discriminate].
  intros _. exists s, names. repeat split; try assumption.
  now rewrite <- (list_datasets_names s names Hs Hn).
Qed.

Lemma listed_In (names : list string) (w : list warning) (l : list string)
  (x : string) :
  listed names = (w, Ok l) -> In x l -> In x names.
Proof.
  unfold listed. destruct (3 <? _)%nat; intros [= _ <-];
    rewrite sort_values_In; [|rewrite filter_In; intros [H _]; revert H];
    apply drop_duplicates_In.
Qed.

Lemma listed_sorted_unique (names : list string) (w : list warning)
  (l : list string) :
  listed names = (w, Ok l) ->
  NoDup l /\ StronglySorted str_le l /\ StronglySorted String_as_OT.lt l.
Proof.
  intros Hl.
  assert (G : forall l0, NoDup l0 ->
              NoDup (sort_values l0) /\ StronglySorted str_le (sort_values l0)
              /\ StronglySorted String_as_OT.lt (sort_values l0)).
  { intros l0 Hnd.
    assert (Hnd' : NoDup (sort_values l0)).
    { eapply Permutation_NoDup; [symmetry; apply sort_values_perm|exact Hnd]. }
    repeat split; [exact Hnd'|apply sort_values_sorted|].
    apply sorted_nodup_strict; [apply sort_values_sorted|exact Hnd']. }
  unfold listed in Hl.
  destruct (3 <? _)%nat; injection Hl as _ <-; apply G.
  - apply drop_duplicates_NoDup.
  - apply NoDup_filter, drop_duplicates_NoDup.
Qed.

(** C9. The list that [list_datasets] returns has no duplicate name and
    is in ascending order of its strings (so strictly ascending). *)
Theorem list_datasets_sorted_unique (w : list warning) (l : list string) :
  list_datasets self = (w, Ok l) ->
  NoDup l /\ StronglySorted str_le l /\ StronglySorted String_as_OT.lt l.
Proof.
  intros H. destruct (list_datasets_returns w l H) as (s & names & _ & _ & Hl).
  exact (listed_sorted_unique names w l Hl).
Qed.

(** C3, as the code has it.  The names are counted after de-duplication:
    when at most 3 distinct names contain ["DataSet"], exactly the names
    without it are listed and nothing is warned; when more than 3 do,
    every name is listed and one UserWarning carries the distinct names
    that contain it. *)
Theorem list_datasets_metadata_names (s : Series) (names : list string) :
  getcol (df_metadata_dataset self) "name" = Ok s ->
  str_accessor (values s) = Ok names ->
  let internal := filter (contains "DataSet") (drop_duplicates names) in
  (List.length internal <= 3 ->
   exists l,
     list_datasets self = ([], Ok l)
     /\ forall n, In n l <-> In n names /\ contains "DataSet" n = false)
  /\ (3 < List.length internal ->
      exists l msg,
        list_datasets self = ([UserWarning msg internal], Ok l)
        /\ (forall n, In n l <-> In n names)
        /\ (forall n, In n internal <-> In n names /\ contains "DataSet" n = true)).
Proof.
  intros Hs Hn internal.
  rewrite (list_datasets_names s names Hs Hn). unfold listed. fold internal.
  split; intros Hk.
  - destruct (Nat.ltb_spec 3 (List.length internal)); [lia|].
    eexists; split; [reflexivity|].
    intros n. rewrite sort_values_In, filter_In, drop_duplicates_In.
    destruct (contains "DataSet" n); simpl; intuition discriminate.
  - destruct (Nat.ltb_spec 3 (List.length internal)); [|lia].
    do 2 eexists; split; [reflexivity|]. split; intros n.
    + now rewrite sort_values_In, drop_duplicates_In.
    + unfold internal. now rewrite filter_In, drop_duplicates_In.
Qed.

(** C10. A catalogue with a column whose label contains ["name"] but
    with no column labelled exactly ["name"] passes the validation, and
    [list_datasets] then raises the KeyError of the missing column, not
    the NotImplementedError of the validation. *)
Theorem list_datasets_name_column_gap :
  existsb (contains "name") (columns (df_metadata_dataset self)) = true ->
  ~ In "name" (columns (df_metadata_dataset self)) ->
  _validate_metadata_dataset_list self = Ok tt
  /\ list_datasets self = ([], Raise (KeyError "name")).
Proof.
  intros Hv Hn.
  assert (V : _validate_metadata_dataset_list self = Ok tt).
  { unfold _validate_metadata_dataset_list. now rewrite Hv. }
  split; [exact V|].
  unfold list_datasets. rewrite V, mbind_lift_Ok.
  unfold getcol, getitem.
  rewrite (proj2 (dict_get_None (df_metadata_dataset self) "name") Hn).
  reflexivity.
Qed.

End ListDatasets.

Lemma list_datasets_sorted_unique_witness :
  NoDup ["DisasterDeclarations"]
  /\ StronglySorted str_le ["DisasterDeclarations"]
  /\ StronglySorted String_as_OT.lt ["DisasterDeclarations"].
Proof.
  apply (list_datasets_sorted_unique Demo.client []). reflexivity.
Defined.

Lemma list_datasets_metadata_names_witness :
  (exists l,
     list_datasets Demo.client_versions = ([], Ok l)
     /\ forall n, In n l <->
                  In n ["OpenFemaDataSets"; "OpenFemaDataSets";
                        "OpenFemaDataSetFields"; "OpenFemaDataSetFields";
                        "DisasterDeclarations"]
                  /\ contains "DataSet" n = false)
  /\ (exists l msg,
        list_datasets Demo.client_many
        = ([UserWarning msg ["OpenFemaDataSets"; "OpenFemaDataSetFields";
                             "DataSetA"; "DataSetB"]], Ok l)
        /\ forall n, In n l <->
                     In n ["OpenFemaDataSets"; "OpenFemaDataSetFields";
                           "DataSetA"; "DataSetB"; "DisasterDeclarations"]).
Proof.
  split.
  - apply (proj1 (list_datasets_metadata_names Demo.client_versions _ _
                    eq_refl eq_refl)).
    vm_compute. lia.
  - destruct (proj2 (list_datasets_metadata_names Demo.client_many _ _
                       eq_refl eq_refl)) as (l & msg & Hl & Hin & _).
    + vm_compute. lia.
    + exists l, msg. split; [exact Hl|exact Hin].
Defined.

(** C3, as the spec words it, fails when a name is listed more than once:
    here four rows have a name that contains ["DataSet"], yet the two
    distinct names are dropped and nothing is warned. *)
Lemma list_datasets_counts_names_not_rows :
  let names := ["OpenFemaDataSets"; "OpenFemaDataSets"; "OpenFemaDataSetFields";
                "OpenFemaDataSetFields"; "DisasterDeclarations"] in
  getcol (df_metadata_dataset Demo.client_versions) "name"
  = Ok (mkSeries "object" (map VStr names))
  /\ 3 < List.length (filter (contains "DataSet") names)
  /\ list_datasets Demo.client_versions = ([], Ok ["DisasterDeclarations"]).
Proof.
  repeat split. vm_compute. lia.
Qed.

Lemma list_datasets_name_column_gap_witness :
  _validate_metadata_dataset_list Demo.client_datasetname = Ok tt
  /\ list_datasets Demo.client_datasetname = ([], Raise (KeyError "name")).
Proof.
  apply list_datasets_name_column_gap.
  - reflexivity.
  - simpl. intuition discriminate.
Defined.

(** ** Construction *)

(** C1. The servers are not checked: with two servers described as
    ["Production"] the constructor takes the first and succeeds, and with
    none it raises the IndexError of the empty list, where the paths and
    the schemas raise NotImplementedError. *)
Theorem init_production_server_unchecked :
  __init__ (Demo.remote Demo.doc_two_production Demo.catalog Demo.data)
           Demo.endpoint "json"
  = Ok (mkOpenFEMA Demo.doc_two_production "https://www.fema.gov/api/open"
                   Demo.catalog)
  /\ __init__ (Demo.remote Demo.doc_no_production Demo.catalog Demo.data)
              Demo.endpoint "json"
     = Raise IndexError.
Proof. split; reflexivity. Qed.

(** ** Reading a dataset: the file format *)

Lemma mbind_Ok {A B} (w : list warning) (a : A) (k : A -> M B) :
  mbind (w, Ok a) k = (w ++ fst (k a), snd (k a)).
Proof. unfold mbind. now destruct (k a). Qed.

Section FileFormat.

Variable ext : External.
Variable self : OpenFEMA.

Lemma read_url_unsupported (file_format : option string) (u : string) :
  (forall f, file_format = Some f -> ~ In f readers) ->
  read_url ext file_format u
  = Raise (ValueError ("The file format of " +++ format_opt file_format +++
                       " is not supported.")).
Proof.
  intros H. destruct file_format as [f|]; [|reflexivity].
  specialize (H f eq_refl). unfold readers in H. simpl in H.
  unfold read_url.
  repeat match goal with
         | |- context [String.eqb f ?s] =>
             destruct (String.eqb_spec f s); [exfalso; subst; tauto|]
         end.
  reflexivity.
Qed.

(** C5. Without an explicit format the first of geojson, parquet, csv,
    jsona that the dataset publishes is selected (none if it publishes
    none of them); an explicit format is selected as it is; and when the
    selected format is none of the four, [read_dataset], once the
    metadata is resolved and the URL is generated, raises the ValueError
    of the unsupported format at the read step.  The selected format is
    the one [read_dataset] works with: once the metadata is resolved, it
    hands that format to [generate_url], reads the URL with the reader of
    that format (geojson, parquet, csv, jsona each have their own) and
    coerces what was read; a format without a reader fails in the reader
    dispatch only, after the URL has been generated. *)
Theorem read_dataset_file_format :
  (forall file_formats,
      select_file_format file_formats None
      = find (fun f => existsb (String.eqb f) file_formats) readers)
  /\ (forall file_formats f, select_file_format file_formats (Some f) = Some f)
  /\ (forall dataset columns filters sort_by top skip parse_dates file_format
             w info file_formats web_service_url version column_dtypes u,
         dataset_info ext self dataset = (w, Ok info) ->
         (distribution <- getitem info "distribution" ;;
          format_strs <- iter_cell distribution ;;
          traverse (json_loads_format ext) format_strs) = Ok file_formats ->
         getitem info "webService" = Ok web_service_url ->
         getitem info "version" = Ok version ->
         _get_dataset_dtype ext self dataset version = Ok column_dtypes ->
         let selected := select_file_format file_formats file_format in
         generate_url ext web_service_url column_dtypes selected
                      columns filters sort_by top skip = Ok u ->
         (forall f, selected = Some f -> ~ In f readers) ->
         read_dataset ext self dataset columns filters sort_by top skip
                      parse_dates file_format
         = (w ++ w ++ w,
            Raise (ValueError ("The file format of " +++ format_opt selected +++
                               " is not supported."))))
  /\ (forall u,
         read_url ext (Some "geojson") u = gpd_read_file ext u
         /\ read_url ext (Some "parquet") u = pd_read_parquet ext u
         /\ read_url ext (Some "csv") u = pd_read_csv ext u
         /\ read_url ext (Some "jsona") u = pd_read_json ext u)
  /\ (forall dataset columns filters sort_by top skip parse_dates file_format
             w info file_formats web_service_url version column_dtypes,
         dataset_info ext self dataset = (w, Ok info) ->
         (distribution <- getitem info "distribution" ;;
          format_strs <- iter_cell distribution ;;
          traverse (json_loads_format ext) format_strs) = Ok file_formats ->
         getitem info "webService" = Ok web_service_url ->
         getitem info "version" = Ok version ->
         _get_dataset_dtype ext self dataset version = Ok column_dtypes ->
         let selected := select_file_format file_formats file_format in
         read_dataset ext self dataset columns filters sort_by top skip
                      parse_dates file_format
         = (w ++ w ++ w,
            u <- generate_url ext web_service_url column_dtypes selected
                   columns filters sort_by top skip ;;
            df_dataset <- read_url ext selected u ;;
            _set_dataset_dtype ext df_dataset
              (limit_columns column_dtypes columns) parse_dates)).
Proof.
  assert (R : forall dataset columns filters sort_by top skip parse_dates
                     file_format w info file_formats web_service_url version
                     column_dtypes,
             dataset_info ext self dataset = (w, Ok info) ->
             (distribution <- getitem info "distribution" ;;
              format_strs <- iter_cell distribution ;;
              traverse (json_loads_format ext) format_strs) = Ok file_formats ->
             getitem info "webService" = Ok web_service_url ->
             getitem info "version" = Ok version ->
             _get_dataset_dtype ext self dataset version = Ok column_dtypes ->
             read_dataset ext self dataset columns filters sort_by top skip
                          parse_dates file_format
             = (w ++ w ++ w,
                u <- generate_url ext web_service_url column_dtypes
                       (select_file_format file_formats file_format)
                       columns filters sort_by top skip ;;
                df_dataset <- read_url ext
                                (select_file_format file_formats file_format) u ;;
                _set_dataset_dtype ext df_dataset
                  (limit_columns column_dtypes columns) parse_dates)).
  { intros dataset columns filters sort_by top skip parse_dates file_format
           w info file_formats web_service_url version column_dtypes
           Hinfo Hdist Hws Hver Hcols.
    unfold read_dataset.
    rewrite Hinfo, mbind_Ok, Hdist, mbind_lift_Ok.
    rewrite mbind_Ok, Hws, mbind_lift_Ok.
    rewrite mbind_Ok, Hver, mbind_lift_Ok, Hcols, mbind_lift_Ok.
    destruct (generate_url ext web_service_url column_dtypes
                (select_file_format file_formats file_format)
                columns filters sort_by top skip) as [u|e]; cbn [bind].
    - rewrite mbind_lift_Ok.
      destruct (read_url ext (select_file_format file_formats file_format) u)
        as [df|e]; cbn [bind].
      + rewrite mbind_lift_Ok. unfold lift. cbn [fst snd].
        now rewrite !app_nil_r.
      + unfold lift. cbn [fst snd mbind]. now rewrite !app_nil_r.
    - unfold lift. cbn [fst snd mbind]. now rewrite !app_nil_r. }
  split; [|split; [|split; [|split]]].
  - intros file_formats. unfold select_file_format, readers. simpl.
    repeat match goal with
           | |- context [if ?b then _ else _] => destruct b; try reflexivity
           end.
  - reflexivity.
  - intros dataset columns filters sort_by top skip parse_dates file_format
           w info file_formats web_service_url version column_dtypes u
           Hinfo Hdist Hws Hver Hcols selected Hurl Hun.
    rewrite (R dataset columns filters sort_by top skip parse_dates file_format
               w info file_formats web_service_url version column_dtypes
               Hinfo Hdist Hws Hver Hcols).
    fold selected. rewrite Hurl. cbn [bind].
    now rewrite (read_url_unsupported selected u Hun).
  - intros u. repeat split.
  - intros dataset columns filters sort_by top skip parse_dates file_format
           w info file_formats web_service_url version column_dtypes
           Hinfo Hdist Hws Hver Hcols selected.
    exact (R dataset columns filters sort_by top skip parse_dates file_format
             w info file_formats web_service_url version column_dtypes
             Hinfo Hdist Hws Hver Hcols).
Qed.

End FileFormat.

Lemma read_dataset_file_format_witness :
  read_dataset Demo.ext_by_format Demo.client "DisasterDeclarations"
               None None None None None true None
  = ([], Ok [("state", mkSeries "string" [VStr "CA"; VStr "TX"]);
             ("declarationDate", mkSeries "datetime64[ns]" [VTime 0; NA]);
             ("disasterNumber", mkSeries "Int32" [VInt 4407; NA])])
  /\ read_dataset Demo.ext_by_format Demo.client "DisasterDeclarations"
                  (Some ["state"]) None None None None true (Some "csv")
     = ([], Ok [("state", mkSeries "string" [VStr "FL"])])
  /\ read_dataset Demo.ext_by_format Demo.client "DisasterDeclarations"
                  None None None None None true (Some "jsona")
     = ([], Raise (OtherError "JSONDecodeError"))
  /\ read_dataset Demo.ext_by_format Demo.client "DisasterDeclarations"
                  None None None None None true (Some "xml")
     = ([], Raise (ValueError "The file format of xml is not supported.")).
Proof.
  pose proof (read_dataset_file_format Demo.ext_by_format Demo.client)
    as (_ & _ & U & _ & R).
  split; [|split; [|split]].
  - exact (eq_trans
             (R "DisasterDeclarations" None None None None None true None
                [] _ _ _ _ _ eq_refl eq_refl eq_refl eq_refl eq_refl)
             eq_refl).
  - exact (eq_trans
             (R "DisasterDeclarations" (Some ["state"]) None None None None true
                (Some "csv") [] _ _ _ _ _ eq_refl eq_refl eq_refl eq_refl eq_refl)
             eq_refl).
  - exact (eq_trans
             (R "DisasterDeclarations" None None None None None true
                (Some "jsona") [] _ _ _ _ _ eq_refl eq_refl eq_refl eq_refl
                eq_refl)
             eq_refl).
  - refine (U "DisasterDeclarations" None None None None None true (Some "xml")
              [] _ _ _ _ _ _ eq_refl eq_refl eq_refl eq_refl eq_refl eq_refl _).
    intros f [= <-]. simpl. intuition discriminate.
Defined.

(** ** Type coercion *)

Section Traverse.

Context {A B : Type}.

Lemma traverse_Ok (f : A -> result B) (l : list A) (r : list B) :
  traverse f l = Ok r <-> Forall2 (fun x y => f x = Ok y) l r.
Proof.
  revert r; induction l as [|x l IH]; intros r; simpl.
  - split.
    + intros [= <-]. constructor.
    + intros H. inversion H. reflexivity.
  - destruct (f x) as [y|e] eqn:E; simpl.
    + destruct (traverse f l) as [r'|e] eqn:T; simpl.
      * split.
        -- intros [= <-]. constructor; [exact E|]. now apply IH.
        -- intros H. inversion H as [|? y0 ? r0 Hy Hr]; subst.
           apply IH in Hr. congruence.
      * split; [discriminate|].
        intros H. inversion H as [|? y0 ? r0 Hy Hr]; subst.
        apply IH in Hr. discriminate.
    + split; [discriminate|].
      intros H. inversion H; subst. congruence.
Qed.

Lemma traverse_ext (f g : A -> result B) (l : list A) :
  (forall x, In x l -> f x = g x) -> traverse f l = traverse g l.
Proof.
  induction l as [|x l IH]; intros H; simpl; [reflexivity|].
  rewrite (H x (or_introl eq_refl)), IH; [reflexivity|].
  intros y Hy. apply H. now right.
Qed.

End Traverse.

Lemma traverse_id {A} (l : list A) : traverse (fun x => Ok x) l = Ok l.
Proof. induction l as [|x l IH]; simpl; [reflexivity|]. now rewrite IH. Qed.

(** Two passes over the columns are one pass of the composed casts. *)
Lemma traverse_compose {A B C} (f : A -> result B) (g : B -> result C)
  (l : list A) (r : list C) :
  traverse (fun x => y <- f x ;; g y) l = Ok r
  <-> exists m, traverse f l = Ok m /\ traverse g m = Ok r.
Proof.
  revert r; induction l as [|x l IH]; intros r; simpl.
  - split.
    + intros [= <-]. now exists [].
    + intros (m & [= <-] & H). exact H.
  - destruct (f x) as [y|e]; simpl.
    + destruct (traverse f l) as [m|e]; simpl.
      * destruct (g y) as [z|e] eqn:G; simpl.
        -- destruct (traverse (fun x => y <- f x ;; g y) l) as [r'|e] eqn:T.
           ++ destruct (proj1 (IH r') eq_refl) as (m' & [= <-] & Hm').
              simpl. split.
              ** intros [= <-]. exists (y :: m). simpl. now rewrite G, Hm'.
              ** intros (m2 & [= <-] & H2). simpl in H2.
                 rewrite G, Hm' in H2. exact H2.
           ++ simpl. split; [discriminate|].
              intros (m2 & [= <-] & H2). simpl in H2. rewrite G in H2. simpl in H2.
              destruct (traverse g m) as [r2|e2] eqn:T2; [|discriminate].
              assert (X : Raise e = Ok r2) by (apply IH; eauto). discriminate.
        -- split; [discriminate|].
           intros (m2 & [= <-] & H2). simpl in H2. rewrite G in H2. discriminate.
      * destruct (g y) as [z|e'] eqn:G; simpl.
        -- destruct (traverse (fun x => y <- f x ;; g y) l) as [r'|e''] eqn:T.
           ++ destruct (proj1 (IH r') eq_refl) as (m' & Hm & _). discriminate.
           ++ simpl. split; [discriminate|]. intros (m2 & H & _). discriminate.
        -- split; [discriminate|]. intros (m2 & H & _). discriminate.
    + split; [discriminate|]. intros (m2 & H & _). discriminate.
Qed.

(** *** What the loops over the declared types build *)

Lemma dict_set_app_fresh {V} (p q : dict V) (k : string) (v v' : V) :
  ~ In k (keys p) -> dict_set (p ++ (k, v) :: q) k v' = p ++ (k, v') :: q.
Proof.
  induction p as [|[k0 v0] p IH]; simpl; intros H.
  - now rewrite String.eqb_refl.
  - destruct (String.eqb_spec k0 k) as [->|Hne]; [tauto|].
    rewrite IH; tauto.
Qed.

(** With [parse_dates] false: every declared type is replaced by the
    name given to [astype]. *)
Lemma retyped_dtypes (m : dict string) :
  NoDup (keys m) ->
  fold_left
    (fun column_dtypes cd =>
       let '(column, dtype) := cd in
       if contains "date" dtype then dict_set column_dtypes column "string"
       else if contains "int" dtype then
              dict_set column_dtypes column (capitalize dtype)
            else column_dtypes)
    m m
  = map (fun kv => (fst kv, if contains "date" (snd kv) then "string"
                            else astype_name (snd kv))) m.
Proof.
  set (step := fun (column_dtypes : dict string) (cd : string * string) => _).
  set (R := fun kv : string * string => _).
  assert (G : forall q p, NoDup (keys (p ++ q)) ->
                          fold_left step q (map R p ++ q) = map R (p ++ q)).
  { induction q as [|[k d] q IH]; intros p Hnd.
    - simpl. now rewrite !app_nil_r.
    - assert (Hk : ~ In k (keys (map R p))).
      { unfold keys in *. rewrite map_map. simpl.
        rewrite map_app in Hnd. apply NoDup_remove_2 in Hnd.
        rewrite in_app_iff in Hnd. tauto. }
      assert (S : step (map R p ++ (k, d) :: q) (k, d)
                  = map R (p ++ [(k, d)]) ++ q).
      { rewrite map_app, <- app_assoc. simpl. unfold step, R, astype_name. simpl.
        destruct (contains "date" d).
        - now rewrite dict_set_app_fresh.
        - destruct (contains "int" d).
          + now rewrite dict_set_app_fresh.
          + reflexivity. }
      cbn [fold_left]. rewrite S, IH.
      + now rewrite <- app_assoc.
      + now rewrite <- app_assoc. }
  intros Hnd. exact (G m [] Hnd).
Qed.

(** With [parse_dates] true: the names for [astype] of the types that
    are no dates, and the labels of the dates. *)
Lemma split_dtypes (m : dict string) :
  NoDup (keys m) ->
  fold_left
    (fun acc cd =>
       let '(non_datetime_columns, datetime_columns) := acc in
       let '(column, dtype) := cd in
       if contains "date" dtype then
         (non_datetime_columns, datetime_columns ++ [column])
       else if contains "int" dtype then
         (dict_set non_datetime_columns column (capitalize dtype),
          datetime_columns)
       else
         (dict_set non_datetime_columns column dtype, datetime_columns))
    m (@nil (string * string), @nil string)
  = (map (fun kv => (fst kv, astype_name (snd kv)))
         (filter (fun kv => negb (contains "date" (snd kv))) m),
     keys (filter (fun kv => contains "date" (snd kv)) m)).
Proof.
  set (step := fun (acc : dict string * list string) (cd : string * string) => _).
  set (R := fun kv : string * string => (fst kv, astype_name (snd kv))).
  assert (G : forall q (nd : dict string) dc,
             NoDup (keys nd ++ keys q) ->
             fold_left step q (nd, dc)
             = (nd ++ map R (filter (fun kv => negb (contains "date" (snd kv))) q),
                dc ++ keys (filter (fun kv => contains "date" (snd kv)) q))).
  { induction q as [|[k d] q IH]; intros nd dc Hnd.
    - simpl. now rewrite !app_nil_r.
    - simpl in Hnd. pose proof (NoDup_remove_1 _ _ _ Hnd) as Hnd1.
      pose proof (NoDup_remove_2 _ _ _ Hnd) as Hk.
      rewrite in_app_iff in Hk.
      simpl. destruct (contains "date" d) eqn:Ed; simpl.
      + rewrite IH by exact Hnd1. f_equal. now rewrite <- app_assoc.
      + assert (S : (if contains "int" d
                     then (dict_set nd k (capitalize d), dc)
                     else (dict_set nd k d, dc))
                    = (nd ++ [R (k, d)], dc)).
        { unfold R, astype_name. simpl.
          destruct (contains "int" d); now rewrite dict_set_fresh by tauto. }
        rewrite S, IH.
        * now rewrite <- app_assoc.
        * unfold keys in *. rewrite map_app, <- app_assoc. exact Hnd. }
  intros Hnd. exact (G m [] [] Hnd).
Qed.

Lemma dict_get_map_values {V W} (g : V -> W) (d : dict V) (k : string) :
  dict_get (map (fun kv => (fst kv, g (snd kv))) d) k
  = option_map g (dict_get d k).
Proof.
  induction d as [|[k0 v0] d IH]; simpl; [reflexivity|].
  destruct (String.eqb k0 k); [reflexivity|exact IH].
Qed.

Lemma keys_filter_incl {V} (p : string * V -> bool) (d : dict V) :
  incl (keys (filter p d)) (keys d).
Proof.
  intros k. unfold keys. rewrite !in_map_iff.
  intros (kv & <- & H). apply filter_In in H. exists kv. tauto.
Qed.

Lemma dict_get_filter {V} (p : V -> bool) (d : dict V) (k : string) :
  NoDup (keys d) ->
  dict_get (filter (fun kv => p (snd kv)) d) k
  = match dict_get d k with
    | Some v => if p v then Some v else None
    | None => None
    end.
Proof.
  induction d as [|[k0 v0] d IH]; simpl; [reflexivity|].
  intros Hnd. inversion Hnd as [|? ? Hk Hd]; subst.
  destruct (String.eqb_spec k0 k) as [->|Hne].
  - destruct (p v0); simpl.
    + now rewrite String.eqb_refl.
    + apply dict_get_None. intros H. apply Hk. revert H. apply keys_filter_incl.
  - destruct (p v0); simpl.
    + destruct (String.eqb_spec k0 k); [contradiction|auto].
    + auto.
Qed.

Lemma existsb_keys {V} (d : dict V) (k : string) :
  existsb (String.eqb k) (keys d)
  = match dict_get d k with Some _ => true | None => false end.
Proof.
  induction d as [|[k0 v0] d IH]; simpl; [reflexivity|].
  rewrite (String.eqb_sym k k0).
  destruct (String.eqb k0 k); simpl; [reflexivity|exact IH].
Qed.

Section Coercion.

Variable ext : External.

Lemma astype_present (df : DataFrame) (dtypes : dict string) :
  incl (keys dtypes) (columns df) ->
  astype ext df dtypes
  = traverse (fun lc =>
                match dict_get dtypes (fst lc) with
                | Some cdt => s <- astype_series ext cdt (snd lc) ;; Ok (fst lc, s)
                | None => Ok lc
                end) df.
Proof.
  intros H. unfold astype.
  destruct (find _ (keys dtypes)) as [k|] eqn:F; [|reflexivity].
  apply find_some in F. destruct F as [Hk Hb].
  apply negb_true_iff in Hb.
  assert (X : existsb (String.eqb k) (columns df) = true).
  { apply existsb_eqb_In. now apply H. }
  congruence.
Qed.

Lemma astype_absent (df : DataFrame) (dtypes : dict string) :
  ~ incl (keys dtypes) (columns df) ->
  exists k, astype ext df dtypes = Raise (KeyError k)
            /\ In k (keys dtypes) /\ ~ In k (columns df).
Proof.
  intros H. unfold astype.
  destruct (find _ (keys dtypes)) as [k|] eqn:F.
  - apply find_some in F. destruct F as [Hk Hb].
    exists k. repeat split; [exact Hk|].
    apply negb_true_iff in Hb. intros Hin.
    apply existsb_eqb_In in Hin. congruence.
  - exfalso. apply H. intros k Hk.
    pose proof (find_none _ _ F k Hk) as Hb. simpl in Hb.
    apply negb_false_iff in Hb. now apply existsb_eqb_In.
Qed.

(** The loop over the date columns (lines 357-358). *)
Abbreviation parse_loop :=
  (fold_left
     (fun acc datetime_column =>
        df_dataset <- acc ;;
        column <- getcol df_dataset datetime_column ;;
        parsed <- pd_to_datetime ext column ;;
        Ok (setcol df_dataset datetime_column parsed))).

Lemma parse_loop_Raise (labels : list string) (e : exn) :
  parse_loop labels (Raise e) = Raise e.
Proof. induction labels as [|c labels IH]; simpl; [reflexivity|exact IH]. Qed.

Lemma columns_setcol (df : DataFrame) (c : string) (s : Series) :
  In c (columns df) -> columns (setcol df c s) = columns df.
Proof. apply keys_dict_set. Qed.

Lemma getcol_In (df : DataFrame) (c : string) (col : Series) :
  getcol df c = Ok col -> In c (columns df).
Proof.
  unfold getcol, getitem.
  destruct (dict_get df c) as [s|] eqn:E; [|discriminate].
  intros _. apply dict_get_In in E.
  change c with (fst (c, s)). now apply in_map.
Qed.

Lemma getcol_present (df : DataFrame) (c : string) :
  In c (columns df) -> exists col, getcol df c = Ok col.
Proof.
  intros H. destruct (dict_get_keys df c H) as [col G].
  exists col. unfold getcol, getitem. now rewrite G.
Qed.

Lemma parse_loop_absent (labels : list string) (df : DataFrame) :
  ~ incl labels (columns df) -> exists e, parse_loop labels (Ok df) = Raise e.
Proof.
  revert df; induction labels as [|c labels IH]; intros df H.
  - exfalso. apply H. intros x [].
  - cbn [fold_left bind].
    destruct (getcol df c) as [col|e] eqn:G; cbn [bind].
    + destruct (pd_to_datetime ext col) as [p|e]; cbn [bind].
      * apply IH. intros Hi. apply H. intros x [<-|Hx].
        -- exact (getcol_In _ _ _ G).
        -- rewrite <- (columns_setcol df c p); [now apply Hi|].
           exact (getcol_In _ _ _ G).
      * exists e. apply parse_loop_Raise.
    + exists e. apply parse_loop_Raise.
Qed.

Lemma traverse_parse_setcol (labels : list string) (df : DataFrame)
  (c : string) (col p : Series) :
  NoDup (columns df) -> ~ In c labels ->
  getcol df c = Ok col -> pd_to_datetime ext col = Ok p ->
  traverse (parse_column ext labels) (setcol df c p)
  = traverse (parse_column ext (c :: labels)) df.
Proof.
  intros Hnd Hc. unfold getcol, getitem, setcol.
  induction df as [|[l0 s0] df IH]; simpl; [discriminate|].
  inversion Hnd as [|? ? Hl0 Hdf]; subst.
  destruct (String.eqb_spec l0 c) as [->|Hne].
  - intros [= ->] Hp. simpl. unfold parse_column at 1 3. simpl.
    rewrite String.eqb_refl. simpl. rewrite Hp. simpl.
    replace (existsb (String.eqb c) labels) with false.
    + cbn [bind].
      rewrite (traverse_ext (parse_column ext labels)
                            (parse_column ext (c :: labels)) df);
        [reflexivity|].
      intros [l1 s1] Hin.
      unfold parse_column. simpl.
      destruct (String.eqb_spec l1 c) as [->|]; [|reflexivity].
      exfalso. apply Hl0. change c with (fst (c, s1)). now apply in_map.
    + symmetry. apply not_true_is_false. rewrite existsb_eqb_In. exact Hc.
  - intros G Hp. simpl. rewrite (IH Hdf G Hp).
    unfold parse_column at 1 3. simpl.
    destruct (String.eqb_spec l0 c); [contradiction|reflexivity].
Qed.

Lemma traverse_parse_Raise (labels : list string) (df : DataFrame)
  (c : string) (col : Series) (e : exn) (df' : DataFrame) :
  In c labels -> getcol df c = Ok col -> pd_to_datetime ext col = Raise e ->
  traverse (parse_column ext labels) df <> Ok df'.
Proof.
  intros Hc. unfold getcol, getitem. revert df'.
  induction df as [|[l0 s0] df IH]; simpl; [discriminate|].
  intros df'. destruct (String.eqb_spec l0 c) as [->|Hne].
  - intros [= ->] Hp. unfold parse_column at 1. simpl.
    rewrite (proj2 (existsb_eqb_In c labels) Hc), Hp. discriminate.
  - intros G Hp. destruct (parse_column ext labels (l0, s0)); simpl; [|discriminate].
    destruct (traverse (parse_column ext labels) df) as [r|e'] eqn:T; simpl;
      [|discriminate].
    exfalso. now apply (IH r G Hp).
Qed.

(** The loop over the date columns is one pass over the columns. *)
Lemma parse_loop_traverse (labels : list string) (df df' : DataFrame) :
  NoDup (columns df) -> NoDup labels -> incl labels (columns df) ->
  parse_loop labels (Ok df) = Ok df'
  <-> traverse (parse_column ext labels) df = Ok df'.
Proof.
  revert df; induction labels as [|c labels IH]; intros df Hnd Hl Hi.
  - simpl. rewrite (traverse_ext (parse_column ext []) (fun x => Ok x));
      [|reflexivity].
    now rewrite traverse_id.
  - inversion Hl as [|? ? Hc Hl']; subst.
    assert (Hin : In c (columns df)) by (apply Hi; now left).
    destruct (getcol_present df c Hin) as [col G'].
    cbn [fold_left bind]. rewrite G'. cbn [bind].
    destruct (pd_to_datetime ext col) as [p|e] eqn:P; cbn [bind].
    + rewrite IH.
      * now rewrite (traverse_parse_setcol labels df c col p Hnd Hc G' P).
      * now rewrite columns_setcol.
      * exact Hl'.
      * rewrite columns_setcol by exact Hin. intros x Hx. apply Hi. now right.
    + rewrite parse_loop_Raise. split; [discriminate|].
      intros T. exfalso.
      now apply (traverse_parse_Raise (c :: labels) df c col e df' (or_introl eq_refl) G' P).
Qed.

End Coercion.

Lemma NoDup_keys_filter {V} (p : string * V -> bool) (d : dict V) :
  NoDup (keys d) -> NoDup (keys (filter p d)).
Proof.
  induction d as [|[k v] d IH]; simpl; intros Hnd; [constructor|].
  inversion Hnd as [|? ? Hk Hd]; subst.
  destruct (p (k, v)); simpl; [constructor|]; auto.
  intros H. apply Hk. revert H. apply keys_filter_incl.
Qed.

Section CoercionOfTable.

Variable ext : External.

(** The cast [astype] makes of one column for the dict [dtypes]. *)
Abbreviation astype_column dtypes :=
  (fun lc : string * Series =>
     match dict_get dtypes (fst lc) with
     | Some cdt => s <- astype_series ext cdt (snd lc) ;; Ok (fst lc, s)
     | None => Ok lc
     end).

Lemma traverse_columns (f : string * Series -> result (string * Series))
  (df df' : DataFrame) :
  (forall lc lc', f lc = Ok lc' -> fst lc' = fst lc) ->
  traverse f df = Ok df' -> columns df' = columns df.
Proof.
  intros Hf H. apply traverse_Ok in H.
  induction H as [|x y l r Hxy Hlr IH]; simpl; [reflexivity|].
  now rewrite (Hf x y Hxy), IH.
Qed.

Lemma astype_column_label (dtypes : dict string) (lc lc' : string * Series) :
  astype_column dtypes lc = Ok lc' -> fst lc' = fst lc.
Proof.
  cbv beta.
  destruct (dict_get dtypes (fst lc)); [|now intros [= <-]].
  destruct (astype_series ext s (snd lc)); simpl; [|discriminate].
  now intros [= <-].
Qed.

(** With [parse_dates] false the whole function is one pass of casts. *)
Lemma set_dataset_dtype_strings (df : DataFrame) (m : dict string) :
  NoDup (keys m) -> incl (keys m) (columns df) ->
  _set_dataset_dtype ext df m false = traverse (coerce_column ext false m) df.
Proof.
  intros Hm Hi. unfold _set_dataset_dtype.
  rewrite (retyped_dtypes m Hm).
  pose (g := fun d : string => if contains "date" d then "string" else astype_name d).
  change (map _ m) with (map (fun kv : string * string => (fst kv, g (snd kv))) m).
  rewrite astype_present.
  - apply traverse_ext. intros [l s] _. unfold coerce_column. simpl.
    rewrite dict_get_map_values.
    destruct (dict_get m l) as [d|]; simpl; [|reflexivity].
    unfold g, coercion_of, astype_name.
    destruct (contains "date" d); [reflexivity|].
    destruct (contains "int" d); reflexivity.
  - unfold keys. rewrite map_map. simpl. exact Hi.
Qed.

(** With [parse_dates] true each column goes through the cast of [astype]
    and then through the date parser; one of the two leaves it alone. *)
Lemma coerce_column_two_passes (m : dict string) (lc : string * Series) :
  NoDup (keys m) ->
  coerce_column ext true m lc
  = (y <- astype_column
            (map (fun kv => (fst kv, astype_name (snd kv)))
                 (filter (fun kv => negb (contains "date" (snd kv))) m)) lc ;;
     parse_column ext
       (keys (filter (fun kv => contains "date" (snd kv)) m)) y).
Proof.
  intros Hm. destruct lc as [l s]. unfold coerce_column, parse_column. simpl.
  rewrite dict_get_map_values.
  rewrite (dict_get_filter (fun d => negb (contains "date" d)) m l Hm).
  assert (E : forall y : Series,
             existsb (String.eqb l)
                     (keys (filter (fun kv => contains "date" (snd kv)) m))
             = match dict_get m l with
               | Some d => contains "date" d
               | None => false
               end).
  { intros _. rewrite existsb_keys.
    rewrite (dict_get_filter (fun d => contains "date" d) m l Hm).
    destruct (dict_get m l) as [d|]; [|reflexivity].
    now destruct (contains "date" d). }
  destruct (dict_get m l) as [d|] eqn:G; simpl.
  - unfold coercion_of. destruct (contains "date" d) eqn:D; simpl.
    + rewrite (E s). reflexivity.
    + assert (N : (if contains "int" d then AsType (capitalize d) else AsType d)
                  = AsType (astype_name d)).
      { unfold astype_name. now destruct (contains "int" d). }
      rewrite N. cbn [coerce].
      destruct (astype_series ext (astype_name d) s) as [s'|e]; cbn [bind fst snd];
        [|reflexivity].
      rewrite (E s'). reflexivity.
  - rewrite (E s). reflexivity.
Qed.

(** [_set_dataset_dtype] on a table that has every column of the type map
    succeeds exactly when the column-wise coercion of the spec does, and
    with the same table. *)
Lemma set_dataset_dtype_traverse (df : DataFrame) (m : dict string)
  (parse_dates : bool) (df' : DataFrame) :
  NoDup (columns df) -> NoDup (keys m) -> incl (keys m) (columns df) ->
  _set_dataset_dtype ext df m parse_dates = Ok df'
  <-> traverse (coerce_column ext parse_dates m) df = Ok df'.
Proof.
  intros Hdf Hm Hi. destruct parse_dates.
  - unfold _set_dataset_dtype. rewrite (split_dtypes m Hm).
    set (nd := map _ (filter _ m)).
    set (dc := keys (filter _ m)).
    assert (Hnd : incl (keys nd) (columns df)).
    { intros k Hk. apply Hi. unfold nd, keys in Hk. rewrite map_map in Hk.
      simpl in Hk. revert Hk. apply keys_filter_incl. }
    assert (Hdc : incl dc (columns df)).
    { intros k Hk. apply Hi. revert Hk. apply keys_filter_incl. }
    assert (Ndc : NoDup dc) by (now apply NoDup_keys_filter).
    rewrite (astype_present ext df nd Hnd).
    rewrite (traverse_ext (coerce_column ext true m)
               (fun lc => y <- astype_column nd lc ;; parse_column ext dc y) df)
      by (intros lc _; now apply coerce_column_two_passes).
    rewrite traverse_compose.
    destruct (traverse (astype_column nd) df) as [df1|e] eqn:T; cbn [bind].
    + assert (C : columns df1 = columns df).
      { apply (traverse_columns (astype_column nd)); [|exact T].
        apply astype_column_label. }
      rewrite parse_loop_traverse by (rewrite ?C; assumption).
      split.
      * intros H. exists df1. now split.
      * intros (df2 & [= <-] & H). exact H.
    + split; [discriminate|]. intros (df2 & H & _). discriminate.
  - now rewrite set_dataset_dtype_strings.
Qed.

(** A type map with a column the table lacks makes it fail. *)
Lemma set_dataset_dtype_absent (df : DataFrame) (m : dict string)
  (parse_dates : bool) :
  NoDup (keys m) -> ~ incl (keys m) (columns df) ->
  exists e, _set_dataset_dtype ext df m parse_dates = Raise e.
Proof.
  intros Hm Hi. destruct parse_dates.
  - unfold _set_dataset_dtype. rewrite (split_dtypes m Hm).
    set (nd := map _ (filter _ m)).
    set (dc := keys (filter _ m)).
    destruct (astype ext df nd) as [df1|e] eqn:A; cbn [bind]; [|eauto].
    apply parse_loop_absent.
    assert (Hnd : incl (keys nd) (columns df)).
    { intros k Hk. destruct (in_dec string_dec k (columns df)) as [H|H]; [exact H|].
      exfalso.
      destruct (astype_absent ext df nd) as (k' & E & _).
      - intros X. apply H. now apply X.
      - congruence. }
    rewrite (astype_present ext df nd Hnd) in A.
    assert (C : columns df1 = columns df).
    { apply (traverse_columns (astype_column nd)); [|exact A].
      apply astype_column_label. }
    rewrite C. intros Hdc. apply Hi. intros k Hk.
    destruct (dict_get_keys m k Hk) as [d G].
    destruct (contains "date" d) eqn:D.
    + apply Hdc. unfold dc.
      apply existsb_eqb_In. rewrite existsb_keys.
      rewrite (dict_get_filter (fun d => contains "date" d) m k Hm), G, D.
      reflexivity.
    + apply Hnd. apply existsb_eqb_In. rewrite existsb_keys. unfold nd.
      rewrite dict_get_map_values.
      rewrite (dict_get_filter (fun d => negb (contains "date" d)) m k Hm), G, D.
      reflexivity.
  - unfold _set_dataset_dtype. rewrite (retyped_dtypes m Hm).
    destruct (astype_absent ext df
                (map (fun kv => (fst kv, if contains "date" (snd kv) then "string"
                                         else astype_name (snd kv))) m))
      as (k & E & _).
    + unfold keys. rewrite map_map. simpl. exact Hi.
    + eauto.
Qed.

Lemma coerce_column_coerced (parse_dates : bool) (m : dict string)
  (lc lc' : string * Series) :
  coerce_column ext parse_dates m lc = Ok lc' <-> coerced ext parse_dates m lc lc'.
Proof.
  unfold coerce_column, coerced. destruct lc as [l s], lc' as [l' s']. simpl.
  destruct (dict_get m l) as [d|].
  - destruct (coerce ext (coercion_of parse_dates d) s) as [s0|e]; simpl.
    + split.
      * intros [= <- <-]. now split.
      * intros [-> [= ->]]. reflexivity.
    + split; [discriminate|]. intros [_ H]. discriminate.
  - split.
    + intros [= <- <-]. now split.
    + intros [-> ->]. reflexivity.
Qed.

Lemma traverse_coerced (parse_dates : bool) (m : dict string)
  (df df' : DataFrame) :
  traverse (coerce_column ext parse_dates m) df = Ok df'
  <-> Forall2 (coerced ext parse_dates m) df df'.
Proof.
  rewrite traverse_Ok. split; intros H; induction H; constructor;
    try assumption; now apply coerce_column_coerced.
Qed.

(** A column of the result is the coercion of the column of that label. *)
Lemma coerced_getcol (parse_dates : bool) (m : dict string)
  (df df' : DataFrame) (c : string) (col : Series) :
  Forall2 (coerced ext parse_dates m) df df' ->
  getcol df c = Ok col ->
  exists col', coerced ext parse_dates m (c, col) (c, col')
               /\ getcol df' c = Ok col'.
Proof.
  unfold getcol, getitem.
  induction 1 as [|[l s] [l' s'] df df' Hc Hr IH]; simpl; [discriminate|].
  pose proof Hc as [Hl _]. simpl in Hl. subst l'.
  destruct (String.eqb_spec l c) as [->|Hne].
  - intros [= ->]. exists s'. split; [exact Hc|reflexivity].
  - exact IH.
Qed.

End CoercionOfTable.

(** With [parse_dates] false the date parser plays no part. *)
Lemma set_dataset_dtype_parser_unused (ext ext' : External) (df : DataFrame)
  (m : dict string) :
  astype_other ext' = astype_other ext ->
  _set_dataset_dtype ext' df m false = _set_dataset_dtype ext df m false.
Proof.
  intros H. unfold _set_dataset_dtype, astype.
  destruct (find _ _); [reflexivity|].
  apply traverse_ext. intros lc _.
  destruct (dict_get _ (fst lc)) as [cdt|]; [|reflexivity].
  unfold astype_series. now rewrite H.
Qed.

Lemma limit_columns_keys (m : dict string) (requested : list string) :
  NoDup (keys m) -> requested <> [] ->
  limit_columns m (Some requested)
  = filter (fun kv => existsb (String.eqb (fst kv)) requested) m.
Proof.
  intros Hm Hr. destruct requested as [|c cs]; [contradiction|].
  unfold limit_columns.
  rewrite dict_comprehension_map by (now apply NoDup_keys_filter).
  rewrite <- (map_id (filter _ m)) at 2.
  apply map_ext. now intros [k v].
Qed.

Section CoercionClaims.

Variable ext : External.

(** C2, as the code has it.  On a table with distinct labels and a type
    map with distinct keys: when the table has every column of the map,
    [_set_dataset_dtype] succeeds exactly with the tables in which each
    column of the map is the cast of the original by the rule of its
    declared type and every other column is unchanged; when the map names
    a column the table lacks, it fails.  [read_dataset] avoids the failure
    for projected reads by keeping only the requested columns in the map. *)
Theorem set_dataset_dtype_present_columns (df : DataFrame) (m : dict string)
  (parse_dates : bool) :
  NoDup (columns df) -> NoDup (keys m) ->
  (incl (keys m) (columns df) ->
   forall df', _set_dataset_dtype ext df m parse_dates = Ok df'
               <-> Forall2 (coerced ext parse_dates m) df df')
  /\ (~ incl (keys m) (columns df) ->
      exists e, _set_dataset_dtype ext df m parse_dates = Raise e)
  /\ (forall requested, requested <> [] ->
        incl (keys (limit_columns m (Some requested))) requested).
Proof.
  intros Hdf Hm. split; [|split].
  - intros Hi df'.
    rewrite (set_dataset_dtype_traverse ext df m parse_dates df' Hdf Hm Hi).
    apply traverse_coerced.
  - now apply set_dataset_dtype_absent.
  - intros requested Hr k Hk.
    rewrite (limit_columns_keys m requested Hm Hr) in Hk.
    unfold keys in Hk. apply in_map_iff in Hk.
    destruct Hk as (kv & <- & Hkv). apply filter_In in Hkv.
    now apply existsb_eqb_In.
Qed.

(** C8.  With [parse_dates] false a column whose declared type contains
    ["date"] and whose cells are text or missing comes back with dtype
    ["string"] and the same cells; alone in its table the cast cannot
    fail; and the date parser has no influence on the result. *)
Theorem set_dataset_dtype_dates_as_strings (df : DataFrame) (m : dict string)
  (c d : string) (col : Series) :
  NoDup (keys m) -> incl (keys m) (columns df) ->
  dict_get m c = Some d -> contains "date" d = true ->
  getcol df c = Ok col -> forallb str_or_na (values col) = true ->
  (forall df', _set_dataset_dtype ext df m false = Ok df' ->
               getcol df' c = Ok (mkSeries "string" (values col)))
  /\ _set_dataset_dtype ext [(c, col)] [(c, d)] false
     = Ok [(c, mkSeries "string" (values col))]
  /\ (forall ext', astype_other ext' = astype_other ext ->
                   _set_dataset_dtype ext' df m false
                   = _set_dataset_dtype ext df m false).
Proof.
  intros Hm Hi Hd Hdate Hcol Htext.
  assert (Hcast : coerce ext (coercion_of false d) col
                  = Ok (mkSeries "string" (values col))).
  { unfold coercion_of. rewrite Hdate. simpl. unfold astype_series. simpl.
    now rewrite Htext. }
  repeat split.
  - intros df' H. rewrite (set_dataset_dtype_strings ext df m Hm Hi) in H.
    apply traverse_coerced in H.
    destruct (coerced_getcol ext false m df df' c col H Hcol) as (col' & Hc & Hg).
    destruct Hc as [_ Hc]. simpl in Hc. rewrite Hd, Hcast in Hc.
    injection Hc as <-. exact Hg.
  - rewrite set_dataset_dtype_strings.
    + simpl. unfold coerce_column. simpl. rewrite String.eqb_refl, Hcast.
      reflexivity.
    + simpl. repeat constructor. intros [].
    + simpl. intros x H. exact H.
  - intros ext' H. now apply set_dataset_dtype_parser_unused.
Qed.

(** C7, as the code has it.  A column whose declared type contains
    ["int"] but not ["date"], and whose capitalised type is the name of a
    nullable integer dtype (int8, int16, int32, int64), is cast to that
    dtype: with integers of the range and missing cells it comes back with
    the same cells, the missing ones still missing; alone in its table the
    cast cannot fail. *)
Theorem set_dataset_dtype_nullable_int (df : DataFrame) (m : dict string)
  (parse_dates : bool) (c d : string) (col : Series) (signed : bool) (bits : Z) :
  NoDup (columns df) -> NoDup (keys m) -> incl (keys m) (columns df) ->
  dict_get m c = Some d ->
  contains "date" d = false -> contains "int" d = true ->
  nullable_int_dtype (capitalize d) = Some (signed, bits) ->
  getcol df c = Ok col -> forallb (int_or_na signed bits) (values col) = true ->
  coercion_of parse_dates d = AsType (capitalize d)
  /\ (forall df', _set_dataset_dtype ext df m parse_dates = Ok df' ->
                  getcol df' c = Ok (mkSeries (capitalize d) (values col)))
  /\ _set_dataset_dtype ext [(c, col)] [(c, d)] parse_dates
     = Ok [(c, mkSeries (capitalize d) (values col))].
Proof.
  intros Hdf Hm Hi Hd Hdate Hint Hnull Hcol Hcells.
  assert (Hco : coercion_of parse_dates d = AsType (capitalize d)).
  { unfold coercion_of. now rewrite Hdate, Hint. }
  assert (Hcast : coerce ext (coercion_of parse_dates d) col
                  = Ok (mkSeries (capitalize d) (values col))).
  { rewrite Hco. simpl. unfold astype_series.
    destruct (String.eqb_spec (capitalize d) "string") as [E|_].
    - rewrite E in Hnull. discriminate.
    - now rewrite Hnull, Hcells. }
  assert (Hone : forall df1 m1 df',
             NoDup (columns df1) -> NoDup (keys m1) -> incl (keys m1) (columns df1) ->
             dict_get m1 c = Some d -> getcol df1 c = Ok col ->
             _set_dataset_dtype ext df1 m1 parse_dates = Ok df' ->
             getcol df' c = Ok (mkSeries (capitalize d) (values col))).
  { intros df1 m1 df' H1 H2 H3 H4 H5 H.
    apply (set_dataset_dtype_traverse ext df1 m1 parse_dates df' H1 H2 H3) in H.
    apply traverse_coerced in H.
    destruct (coerced_getcol ext parse_dates m1 df1 df' c col H H5)
      as (col' & Hc & Hg).
    destruct Hc as [_ Hc]. simpl in Hc. rewrite H4, Hcast in Hc.
    injection Hc as <-. exact Hg. }
  split; [exact Hco|]. split.
  - intros df' H. now apply (Hone df m df').
  - assert (N1 : NoDup (columns [(c, col)])) by (simpl; repeat constructor; intros []).
    assert (N2 : NoDup (keys [(c, d)])) by (simpl; repeat constructor; intros []).
    assert (N3 : incl (keys [(c, d)]) (columns [(c, col)])) by (intros x H; exact H).
    apply (set_dataset_dtype_traverse ext _ _ parse_dates _ N1 N2 N3).
    simpl. unfold coerce_column. simpl. rewrite String.eqb_refl, Hcast.
    reflexivity.
Qed.

End CoercionClaims.

Ltac distinct_strings := simpl; repeat constructor; simpl; intuition discriminate.

Lemma set_dataset_dtype_present_columns_witness :
  Forall2 (coerced Demo.ext true Demo.dtypes) Demo.data
    [("state", mkSeries "string" [VStr "CA"; VStr "TX"]);
     ("declarationDate", mkSeries "datetime64[ns]" [VTime 0; NA]);
     ("disasterNumber", mkSeries "Int32" [VInt 4407; NA])].
Proof.
  refine (proj1 (proj1 (set_dataset_dtype_present_columns Demo.ext Demo.data
                          Demo.dtypes true _ _) _ _) eq_refl).
  - distinct_strings.
  - distinct_strings.
  - intros x H. exact H.
Defined.

(** C2, as the spec words it, fails: a type map that names a column the
    table lacks (here the table read with [columns=["state"]], the map not
    restricted) raises KeyError, with or without date parsing. *)
Lemma set_dataset_dtype_absent_column_fails :
  _set_dataset_dtype Demo.ext Demo.data_state Demo.dtypes false
  = Raise (KeyError "declarationDate")
  /\ _set_dataset_dtype Demo.ext Demo.data_state Demo.dtypes true
     = Raise (KeyError "disasterNumber")
  /\ _set_dataset_dtype Demo.ext Demo.data_state
       [("state", "string"); ("declarationDate", "date-time")] true
     = Raise (KeyError "declarationDate").
Proof. repeat split. Qed.

Lemma set_dataset_dtype_dates_as_strings_witness :
  _set_dataset_dtype Demo.ext
    [("declarationDate",
      Demo.object_column [VStr "2018-13-45T00:00:00.000Z"; NA])]
    [("declarationDate", "date-time")] false
  = Ok [("declarationDate",
         mkSeries "string" [VStr "2018-13-45T00:00:00.000Z"; NA])]
  /\ pd_to_datetime Demo.ext
       (Demo.object_column [VStr "2018-13-45T00:00:00.000Z"; NA])
     = Raise (ValueError "Unknown datetime string format").
Proof.
  split; [|reflexivity].
  refine (proj1 (proj2 (set_dataset_dtype_dates_as_strings Demo.ext
                          Demo.data_text Demo.dtypes
                          "declarationDate" "date-time"
                          (Demo.object_column
                             [VStr "2018-13-45T00:00:00.000Z"; NA])
                          _ _ eq_refl eq_refl eq_refl eq_refl))).
  - distinct_strings.
  - intros x H. exact H.
Defined.

Lemma set_dataset_dtype_nullable_int_witness :
  _set_dataset_dtype Demo.ext
    [("disasterNumber", mkSeries "float64" [VInt 4407; NA])]
    [("disasterNumber", "int32")] true
  = Ok [("disasterNumber", mkSeries "Int32" [VInt 4407; NA])].
Proof.
  refine (proj2 (proj2 (set_dataset_dtype_nullable_int Demo.ext Demo.data
                          Demo.dtypes true "disasterNumber" "int32"
                          (mkSeries "float64" [VInt 4407; NA]) true 32%Z
                          _ _ _ eq_refl eq_refl eq_refl eq_refl eq_refl eq_refl))).
  - distinct_strings.
  - distinct_strings.
  - intros x H. exact H.
Defined.

(** C7, as the spec words it, fails for two kinds of declared type that
    contain ["int"]: one that also contains ["date"] takes the date branch
    (its column comes back as dates, or as strings), and one whose
    capitalised form is no nullable integer dtype ("uint32" becomes
    "Uint32", not "UInt32") is handed to [astype] under a name that is not
    a nullable integer, which pandas refuses. *)
Lemma coercion_of_int_not_nullable :
  contains "int" "date-interval" = true
  /\ coercion_of true "date-interval" = ToDatetime
  /\ _set_dataset_dtype Demo.ext
       [("period", Demo.object_column [VStr "P1D"; NA])]
       [("period", "date-interval")] false
     = Ok [("period", mkSeries "string" [VStr "P1D"; NA])]
  /\ contains "int" "uint32" = true
  /\ (forall parse_dates,
        ~ exists name kind,
            coercion_of parse_dates "uint32" = AsType name
            /\ nullable_int_dtype name = Some kind)
  /\ _set_dataset_dtype Demo.ext
       [("count", mkSeries "float64" [VInt 7; NA])] [("count", "uint32")] true
     = (s <- astype_other Demo.ext "Uint32" (mkSeries "float64" [VInt 7; NA]) ;;
        Ok [("count", s)])
  /\ astype_other Demo.ext "Uint32" (mkSeries "float64" [VInt 7; NA])
     = Raise TypeError.
Proof.
  repeat split.
  intros parse_dates (name & kind & H & N).
  destruct parse_dates; injection H as <-; discriminate.
Qed.

(** ** The description of a dataset *)

Lemma str_accessor_Ok (cells : list cell) (names : list string) :
  str_accessor cells = Ok names -> cells = map VStr names.
Proof.
  revert names; induction cells as [|c cells IH]; intros names; simpl.
  - now intros [= <-].
  - destruct c; try discriminate.
    destruct (str_accessor cells) as [r|e]; simpl; [|discriminate].
    intros [= <-]. simpl. now rewrite (IH r eq_refl).
Qed.

Lemma isin_sum_count (l : list string) (x : string) :
  isin_sum l x = count_occ string_dec l x.
Proof.
  unfold isin_sum. rewrite mask_sum_map.
  induction l as [|y l IH]; simpl; [reflexivity|].
  destruct (string_dec y x) as [->|Hne].
  - rewrite String.eqb_refl. simpl. now rewrite IH.
  - destruct (String.eqb_spec y x); [contradiction|exact IH].
Qed.

Lemma mask_select_length {A} (l : list A) (mask : list bool) :
  List.length l = List.length mask -> In true mask ->
  0 < List.length (mask_select l mask).
Proof.
  revert mask; induction l as [|x l IH]; intros [|b mask]; simpl;
    try discriminate; try tauto.
  intros [= Hlen] [->|Hin]; simpl; [lia|].
  destruct b; simpl; [lia|auto].
Qed.

Lemma to_dict_records_nonempty (df : DataFrame) :
  0 < nrows df -> exists row, item0 (to_dict_records df) = Ok row.
Proof.
  unfold to_dict_records. intros H.
  destruct (nrows df) as [|n]; [lia|]. simpl. eauto.
Qed.

Section DatasetInfo.

Variable ext : External.
Variable self : OpenFEMA.

Lemma check_if_dataset_exists_listed (dataset : string) (w : list warning)
  (l : list string) :
  list_datasets self = (w, Ok l) ->
  _check_if_dataset_exists self dataset
  = (w, if in_dec string_dec dataset l then Ok tt else Raise (not_found dataset)).
Proof.
  intros H.
  destruct (list_datasets_returns self w l H) as (s & names & Hs & _ & Hl).
  destruct (listed_sorted_unique names w l Hl) as [Hnd _].
  unfold _check_if_dataset_exists.
  rewrite (validate_name_column self s Hs), mbind_lift_Ok, H, mbind_Ok.
  rewrite isin_sum_count.
  destruct (in_dec string_dec dataset l) as [Hin|Hin].
  - rewrite (proj1 (NoDup_count_occ' string_dec l) Hnd dataset Hin).
    simpl. now rewrite app_nil_r.
  - rewrite (proj1 (count_occ_not_In string_dec l dataset) Hin).
    simpl. now rewrite app_nil_r.
Qed.

(** The first record of the catalogue under the name [dataset]. *)
Lemma first_record_exists (dataset : string) (s : Series) (names : list string) :
  rectangular (df_metadata_dataset self) ->
  getcol (df_metadata_dataset self) "name" = Ok s ->
  str_accessor (values s) = Ok names ->
  In dataset names ->
  exists row, first_record self dataset = Ok row.
Proof.
  intros Hrect Hs Hn Hin. unfold first_record. rewrite Hs. cbn [bind].
  apply to_dict_records_nonempty.
  assert (Hlen : List.length (values s) = nrows (df_metadata_dataset self)).
  { unfold getcol, getitem in Hs.
    destruct (dict_get _ "name") as [s'|] eqn:G; [|discriminate].
    injection Hs as ->. apply dict_get_In in G. exact (Hrect "name" s G). }
  destruct (df_metadata_dataset self) as [|[l0 s0] df]; simpl in *.
  - unfold getcol, getitem in Hs. discriminate.
  - apply mask_select_length.
    + now rewrite length_map.
    + rewrite (str_accessor_Ok (values s) names Hn), map_map.
      apply in_map_iff. exists dataset. split; [apply String.eqb_refl|exact Hin].
Qed.

(** C6, as the code has it.  A name outside the list of datasets makes
    [dataset_info] raise the ValueError of the missing dataset.  For a name
    in the list of a rectangular catalogue the catalogue has a first record
    of that name, and [dataset_info] succeeds as soon as that record has a
    version for which the schema resolves; the record then carries the
    resolved types under ["columns"]. *)
Theorem dataset_info_listed (dataset : string) (w : list warning)
  (l : list string) :
  list_datasets self = (w, Ok l) ->
  (~ In dataset l ->
   dataset_info ext self dataset = (w, Raise (not_found dataset)))
  /\ (In dataset l -> rectangular (df_metadata_dataset self) ->
      exists row,
        first_record self dataset = Ok row
        /\ forall version column_dtypes,
             getitem row "version" = Ok version ->
             _get_dataset_dtype ext self dataset version = Ok column_dtypes ->
             exists info,
               dataset_info ext self dataset = (w, Ok info)
               /\ getitem info "columns" = Ok (VDict column_dtypes)).
Proof.
  intros H.
  destruct (list_datasets_returns self w l H) as (s & names & Hs & Hn & Hl).
  pose proof (check_if_dataset_exists_listed dataset w l H) as Hc.
  split.
  - intros Hin. unfold dataset_info.
    rewrite (validate_name_column self s Hs), mbind_lift_Ok, Hc.
    destruct (in_dec string_dec dataset l); [contradiction|reflexivity].
  - intros Hin Hrect.
    destruct (first_record_exists dataset s names Hrect Hs Hn
                (listed_In names w l dataset Hl Hin)) as [row Hrow].
    exists row. split; [exact Hrow|].
    intros version column_dtypes Hv Hd.
    exists (dict_set row "columns" (VDict column_dtypes)). split.
    + unfold first_record in Hrow. rewrite Hs in Hrow. cbn [bind] in Hrow.
      unfold dataset_info.
      rewrite (validate_name_column self s Hs), mbind_lift_Ok, Hc.
      destruct (in_dec string_dec dataset l); [|contradiction].
      rewrite mbind_Ok, Hs, mbind_lift_Ok, Hrow, mbind_lift_Ok.
      rewrite Hv, mbind_lift_Ok, Hd, mbind_lift_Ok.
      simpl. now rewrite app_nil_r.
    + unfold getitem. now rewrite dict_get_set_same.
Qed.

End DatasetInfo.

Lemma dataset_info_listed_witness :
  exists info,
    dataset_info Demo.ext Demo.client "DisasterDeclarations" = ([], Ok info)
    /\ getitem info "columns" = Ok (VDict Demo.dtypes).
Proof.
  destruct (proj2 (dataset_info_listed Demo.ext Demo.client
                     "DisasterDeclarations" [] ["DisasterDeclarations"]
                     eq_refl)) as (row & Hrow & Hinfo).
  - now left.
  - intros label s H. simpl in H.
    repeat (destruct H as [H|H]; [injection H as <- <-; reflexivity|]).
    contradiction.
  - vm_compute in Hrow. injection Hrow as <-.
    apply (Hinfo (VInt 2) Demo.dtypes); reflexivity.
Defined.

(** C6, as the spec words it, fails when the schemas have drifted from
    the catalogue: both names are listed, yet the description of the first
    raises NotImplementedError (no schema of its version) and the
    description of the second has no column. *)
Lemma dataset_info_of_listed_name_fails :
  list_datasets Demo.client_drift
  = ([], Ok ["FimaNfipClaims"; "HazardMitigationPlans"])
  /\ dataset_info Demo.ext Demo.client_drift "FimaNfipClaims"
     = ([], Raise (NotImplementedError
                     ("Multiple possible options found for the " +++
                      "dataset in the OpenFEMA API metadata.") []))
  /\ dataset_info Demo.ext Demo.client_drift "HazardMitigationPlans"
     = ([], Ok [("name", VStr "HazardMitigationPlans"); ("version", VInt 1);
                ("columns", VDict [])]).
Proof. repeat split. Qed.


(** * Further properties of the class *)

(** ** Failed validation and unknown names *)

Section Propagation.

Variable ext : External.
Variable self : OpenFEMA.

(** X3. When no column label of the catalogue contains ["name"], every
    public operation raises the NotImplementedError of the validation,
    without a warning and whatever its arguments. *)
Theorem validation_failure_everywhere :
  existsb (contains "name") (columns (df_metadata_dataset self)) = false ->
  list_datasets self = ([], Raise names_column_changed)
  /\ (forall dataset,
        _check_if_dataset_exists self dataset = ([], Raise names_column_changed))
  /\ (forall dataset,
        dataset_info ext self dataset = ([], Raise names_column_changed))
  /\ (forall dataset columns filters sort_by top skip parse_dates file_format,
        read_dataset ext self dataset columns filters sort_by top skip
                     parse_dates file_format
        = ([], Raise names_column_changed)).
Proof.
  intros H.
  assert (V : _validate_metadata_dataset_list self = Raise names_column_changed).
  { unfold _validate_metadata_dataset_list. now rewrite H. }
  assert (D : forall dataset,
             dataset_info ext self dataset = ([], Raise names_column_changed)).
  { intros dataset. unfold dataset_info. now rewrite V. }
  repeat split.
  - unfold list_datasets. now rewrite V.
  - intros dataset. unfold _check_if_dataset_exists. now rewrite V.
  - exact D.
  - intros. unfold read_dataset. now rewrite D.
Qed.

Lemma dataset_info_unlisted (dataset : string) (w : list warning)
  (l : list string) :
  list_datasets self = (w, Ok l) -> ~ In dataset l ->
  dataset_info ext self dataset = (w, Raise (not_found dataset)).
Proof.
  intros H Hin.
  destruct (list_datasets_returns self w l H) as (s & names & Hs & _ & _).
  unfold dataset_info.
  rewrite (validate_name_column self s Hs), mbind_lift_Ok.
  rewrite (check_if_dataset_exists_listed self dataset w l H).
  destruct (in_dec string_dec dataset l); [contradiction|reflexivity].
Qed.

(** X6. [read_dataset] stops at the first failure of [dataset_info], with
    the same warnings and the same exception; for a name that
    [list_datasets] does not return this is the ValueError of the missing
    dataset, whatever the other arguments and whatever the readers do. *)
Theorem read_dataset_unknown_dataset (dataset : string)
  (columns : option (list string)) (filters : option (list (list filter_atom)))
  (sort_by : option (list sort_key)) (top skip : option Z)
  (parse_dates : bool) (file_format : option string) :
  (forall w e,
      dataset_info ext self dataset = (w, Raise e) ->
      read_dataset ext self dataset columns filters sort_by top skip
                   parse_dates file_format = (w, Raise e))
  /\ (forall w l,
        list_datasets self = (w, Ok l) -> ~ In dataset l ->
        read_dataset ext self dataset columns filters sort_by top skip
                     parse_dates file_format = (w, Raise (not_found dataset))).
Proof.
  assert (P : forall w e,
             dataset_info ext self dataset = (w, Raise e) ->
             read_dataset ext self dataset columns filters sort_by top skip
                          parse_dates file_format = (w, Raise e)).
  { intros w e H. unfold read_dataset. now rewrite H. }
  split; [exact P|].
  intros w l H Hin. apply P. now apply (dataset_info_unlisted dataset w l).
Qed.

(** X5. When [list_datasets] warns of nothing, a name that contains
    ["DataSet"] is not in its list, so the catalogue's own tables can be
    neither described nor read: both raise the ValueError of the missing
    dataset. *)
Theorem internal_dataset_not_found (dataset : string) (l : list string) :
  list_datasets self = ([], Ok l) ->
  contains "DataSet" dataset = true ->
  ~ In dataset l
  /\ dataset_info ext self dataset = ([], Raise (not_found dataset))
  /\ (forall columns filters sort_by top skip parse_dates file_format,
        read_dataset ext self dataset columns filters sort_by top skip
                     parse_dates file_format
        = ([], Raise (not_found dataset))).
Proof.
  intros H Hc.
  destruct (list_datasets_returns self [] l H) as (s & names & _ & _ & Hl).
  assert (Hin : ~ In dataset l).
  { unfold listed in Hl. destruct (3 <? _)%nat; [discriminate|].
    injection Hl as <-. rewrite sort_values_In, filter_In, Hc.
    intros [_ X]. discriminate. }
  assert (D := dataset_info_unlisted dataset [] l H Hin).
  repeat split; [exact Hin|exact D|].
  intros. unfold read_dataset. now rewrite D.
Qed.

End Propagation.

(** ** The list of datasets is a function of the set of names *)

Lemma sorted_lt_unique (l1 l2 : list string) :
  StronglySorted String_as_OT.lt l1 -> StronglySorted String_as_OT.lt l2 ->
  (forall x, In x l1 <-> In x l2) -> l1 = l2.
Proof.
  intros H1; revert l2; induction H1 as [|a l1 Hl1 IH Ha]; intros l2 H2 Hin.
  - destruct l2 as [|b l2]; [reflexivity|].
    exfalso. apply (proj2 (Hin b)). now left.
  - destruct H2 as [|b l2 Hl2 Hb].
    + exfalso. apply (proj1 (Hin a)). now left.
    + rewrite Forall_forall in Ha, Hb.
      assert (E : a = b).
      { destruct (proj1 (Hin a) (or_introl eq_refl)) as [E|E]; [now symmetry|].
        destruct (proj2 (Hin b) (or_introl eq_refl)) as [E'|E']; [exact E'|].
        exfalso. apply (StrictOrder_Irreflexive a).
        transitivity b; [now apply Ha|now apply Hb]. }
      subst b. f_equal. apply IH; [exact Hl2|].
      intros x; split; intros Hx.
      * destruct (proj1 (Hin x) (or_intror Hx)) as [E|E]; [|exact E].
        subst x. exfalso. apply (StrictOrder_Irreflexive a). now apply Ha.
      * destruct (proj2 (Hin x) (or_intror Hx)) as [E|E]; [|exact E].
        subst x. exfalso. apply (StrictOrder_Irreflexive a). now apply Hb.
Qed.

Lemma sort_values_canonical (l1 l2 : list string) :
  NoDup l1 -> NoDup l2 -> (forall x, In x l1 <-> In x l2) ->
  sort_values l1 = sort_values l2.
Proof.
  intros N1 N2 Hin.
  assert (S : forall l, NoDup l -> StronglySorted String_as_OT.lt (sort_values l)).
  { intros l N. apply sorted_nodup_strict; [apply sort_values_sorted|].
    eapply Permutation_NoDup; [symmetry; apply sort_values_perm|exact N]. }
  apply sorted_lt_unique; auto.
  intros x. now rewrite !sort_values_In.
Qed.

Lemma same_elements_length (l1 l2 : list string) :
  NoDup l1 -> NoDup l2 -> (forall x, In x l1 <-> In x l2) ->
  List.length l1 = List.length l2.
Proof.
  intros N1 N2 Hin. apply Nat.le_antisymm; apply NoDup_incl_length;
    try assumption; intros x Hx; now apply Hin.
Qed.

(** X4. The list of datasets depends on the set of names of the catalogue
    only: two catalogues with the same names, in any order and with any
    repetition, give the same list, and one warns exactly when the other
    does. *)
Theorem list_datasets_depends_on_names (self1 self2 : OpenFEMA)
  (s1 s2 : Series) (names1 names2 : list string) :
  getcol (df_metadata_dataset self1) "name" = Ok s1 ->
  str_accessor (values s1) = Ok names1 ->
  getcol (df_metadata_dataset self2) "name" = Ok s2 ->
  str_accessor (values s2) = Ok names2 ->
  (forall x, In x names1 <-> In x names2) ->
  exists w1 w2 l,
    list_datasets self1 = (w1, Ok l) /\ list_datasets self2 = (w2, Ok l)
    /\ (w1 = [] <-> w2 = []).
Proof.
  intros G1 A1 G2 A2 Hin.
  rewrite (list_datasets_names self1 s1 names1 G1 A1).
  rewrite (list_datasets_names self2 s2 names2 G2 A2).
  unfold listed.
  assert (D : forall x, In x (drop_duplicates names1)
                        <-> In x (drop_duplicates names2)).
  { intros x. now rewrite !drop_duplicates_In. }
  assert (L : List.length (filter (contains "DataSet") (drop_duplicates names1))
              = List.length (filter (contains "DataSet") (drop_duplicates names2))).
  { apply same_elements_length.
    - apply NoDup_filter, drop_duplicates_NoDup.
    - apply NoDup_filter, drop_duplicates_NoDup.
    - intros x. rewrite !filter_In, D. tauto. }
  rewrite L. destruct (3 <? _)%nat.
  - do 3 eexists. split; [reflexivity|]. split.
    + f_equal. f_equal. symmetry.
      apply sort_values_canonical; auto using drop_duplicates_NoDup.
    + split; discriminate.
  - do 3 eexists. split; [reflexivity|]. split.
    + f_equal. f_equal. symmetry. apply sort_values_canonical.
      * apply NoDup_filter, drop_duplicates_NoDup.
      * apply NoDup_filter, drop_duplicates_NoDup.
      * intros x. rewrite !filter_In, D. tauto.
    + tauto.
Qed.

(** ** The record of a dataset *)

Lemma dict_get_of_In {V} (d : dict V) (k : string) (v : V) :
  NoDup (keys d) -> In (k, v) d -> dict_get d k = Some v.
Proof.
  induction d as [|[k' v'] d IH]; simpl; [tauto|].
  intros Hnd [H|H]; inversion Hnd as [|? ? Hk Hd]; subst.
  - injection H as -> ->. now rewrite String.eqb_refl.
  - destruct (String.eqb_spec k' k) as [->|Hne]; [|auto].
    exfalso; apply Hk. change k with (fst (k, v)). now apply in_map.
Qed.

Lemma dict_get_set_skip {V} (d : dict V) (k k' : string) (v : V) :
  k <> k' -> dict_get (dict_set d k v) k' = dict_get d k'.
Proof.
  intros Hne. induction d as [|[k0 v0] d IH]; simpl.
  - destruct (String.eqb_spec k k'); [contradiction|reflexivity].
  - destruct (String.eqb_spec k0 k) as [->|Hne0]; simpl.
    + destruct (String.eqb_spec k k'); [contradiction|reflexivity].
    + now rewrite IH.
Qed.

Lemma nth_mask_select {A} (l : list A) (mask : list bool) (d : A) :
  In true mask -> nth 0 (mask_select l mask) d = nth (first_true mask) l d.
Proof.
  revert l; induction mask as [|b mask IH]; intros l H; [contradiction|].
  destruct l as [|x l].
  - change (mask_select [] (b :: mask)) with (@nil A).
    now destruct (first_true (b :: mask)).
  - destruct b; simpl; [reflexivity|].
    apply IH. destruct H as [H|H]; [discriminate|exact H].
Qed.

Lemma nth_first_index (dataset : string) (names : list string) :
  In dataset names ->
  nth (first_index dataset names) (map VStr names) NA = VStr dataset.
Proof.
  unfold first_index. induction names as [|n names IH]; [contradiction|].
  intros H. simpl. destruct (String.eqb_spec n dataset) as [->|Hne];
    [reflexivity|].
  apply IH. destruct H as [H|H]; [contradiction|exact H].
Qed.

Lemma first_row_lookup (df : DataFrame) (row : dict cell) (label : string)
  (col : Series) :
  NoDup (columns df) -> item0 (to_dict_records df) = Ok row ->
  In (label, col) df ->
  dict_get row label = Some (nth 0 (values col) NA).
Proof.
  intros Hnd Hrow Hin. unfold to_dict_records in Hrow.
  destruct (nrows df) as [|n]; [discriminate|].
  simpl in Hrow. injection Hrow as <-.
  change (fold_left _ df []) with
    (dict_comprehension (fun (_ : string) (s : Series) => nth 0 (values s) NA) df).
  rewrite dict_comprehension_map by exact Hnd.
  change (map _ df) with
    (map (fun kv : string * Series =>
            (fst kv, (fun s => nth 0 (values s) NA) (snd kv))) df).
  rewrite dict_get_map_values, (dict_get_of_In df label col Hnd Hin).
  reflexivity.
Qed.

Section DatasetRecord.

Variable ext : External.
Variable self : OpenFEMA.

Lemma mbind_Raise {A B} (w : list warning) (e : exn) (k : A -> M B) :
  mbind (w, Raise e) k = (w, Raise e).
Proof. reflexivity. Qed.

(** What a successful [dataset_info] went through. *)
Lemma dataset_info_inversion (dataset : string) (w : list warning)
  (info : dict cell) :
  dataset_info ext self dataset = (w, Ok info) ->
  exists l row version column_dtypes,
    list_datasets self = (w, Ok l) /\ In dataset l
    /\ first_record self dataset = Ok row
    /\ getitem row "version" = Ok version
    /\ _get_dataset_dtype ext self dataset version = Ok column_dtypes
    /\ info = dict_set row "columns" (VDict column_dtypes).
Proof.
  intros H. unfold dataset_info in H.
  destruct (_validate_metadata_dataset_list self) as [[]|e] eqn:V;
    [|discriminate].
  rewrite mbind_lift_Ok in H.
  destruct (list_datasets self) as [w0 [l|e]] eqn:L.
  - rewrite (check_if_dataset_exists_listed self dataset w0 l L) in H.
    destruct (in_dec string_dec dataset l) as [Hin|Hin]; [|discriminate].
    rewrite mbind_Ok in H.
    destruct (getcol (df_metadata_dataset self) "name") as [s|e] eqn:G;
      [|discriminate].
    rewrite mbind_lift_Ok in H.
    destruct (item0 (to_dict_records
                       (select_rows (df_metadata_dataset self)
                          (map (fun c => match c with
                                         | VStr s => String.eqb s dataset
                                         | _ => false
                                         end) (values s)))))
      as [row|e] eqn:R; [|discriminate].
    rewrite mbind_lift_Ok in H.
    destruct (getitem row "version") as [version|e] eqn:Hv; [|discriminate].
    rewrite mbind_lift_Ok in H.
    destruct (_get_dataset_dtype ext self dataset version) as [cd|e] eqn:Hd;
      [|discriminate].
    rewrite mbind_lift_Ok in H. simpl in H. rewrite app_nil_r in H.
    injection H as <- <-. exists l, row, version, cd.
    repeat split; try assumption.
    unfold first_record. rewrite G. exact R.
  - exfalso. unfold _check_if_dataset_exists in H.
    rewrite V, mbind_lift_Ok, L in H. discriminate.
Qed.

(** X8. Whenever [dataset_info] returns a record, the name is one of
    [list_datasets], the warnings are those of [list_datasets], and the
    entry under ["columns"] is the schema of the version found in that
    same record. *)
Theorem dataset_info_consistent (dataset : string) (w : list warning)
  (info : dict cell) :
  dataset_info ext self dataset = (w, Ok info) ->
  (exists l, list_datasets self = (w, Ok l) /\ In dataset l)
  /\ exists version column_dtypes,
       getitem info "version" = Ok version
       /\ _get_dataset_dtype ext self dataset version = Ok column_dtypes
       /\ getitem info "columns" = Ok (VDict column_dtypes).
Proof.
  intros H.
  destruct (dataset_info_inversion dataset w info H)
    as (l & row & version & cd & Hl & Hin & _ & Hv & Hd & ->).
  split; [eauto|].
  exists version, cd. repeat split; [|exact Hd|].
  - unfold getitem in *. rewrite dict_get_set_skip; [exact Hv|discriminate].
  - unfold getitem. now rewrite dict_get_set_same.
Qed.

(** X7. The record that [dataset_info] returns is the first row of the
    catalogue under that name: every field other than ["columns"] holds
    the cell of its column at the first position of the name, and the
    field ["name"] is the requested name. *)
Theorem dataset_info_first_row (dataset : string) (w : list warning)
  (info : dict cell) (s : Series) (names : list string) :
  dataset_info ext self dataset = (w, Ok info) ->
  NoDup (columns (df_metadata_dataset self)) ->
  getcol (df_metadata_dataset self) "name" = Ok s ->
  str_accessor (values s) = Ok names ->
  (forall label col,
      In (label, col) (df_metadata_dataset self) -> label <> "columns" ->
      getitem info label
      = Ok (nth (first_index dataset names) (values col) NA))
  /\ getitem info "name" = Ok (VStr dataset).
Proof.
  intros H Hnd Hs Hn.
  destruct (dataset_info_inversion dataset w info H)
    as (l & row & version & cd & Hl & Hin & Hrow & _ & _ & ->).
  destruct (list_datasets_returns self w l Hl) as (s' & names' & Hs' & Hn' & Hlisted).
  rewrite Hs in Hs'. injection Hs' as <-.
  rewrite Hn in Hn'. injection Hn' as <-.
  pose proof (listed_In names w l dataset Hlisted Hin) as Hdn.
  pose proof (str_accessor_Ok (values s) names Hn) as Hvals.
  unfold first_record in Hrow. rewrite Hs in Hrow. cbn [bind] in Hrow.
  rewrite Hvals, map_map in Hrow.
  set (mask := map (fun n => String.eqb n dataset) names) in *.
  assert (Hmask : In true mask).
  { apply in_map_iff. exists dataset. split; [apply String.eqb_refl|exact Hdn]. }
  assert (F : forall label col,
             In (label, col) (df_metadata_dataset self) ->
             dict_get row label
             = Some (nth (first_index dataset names) (values col) NA)).
  { intros label col Hc.
    rewrite (first_row_lookup (select_rows (df_metadata_dataset self) mask) row
               label (mkSeries (dtype col) (mask_select (values col) mask))).
    - simpl. f_equal. now apply nth_mask_select.
    - unfold select_rows, columns. rewrite map_map. exact Hnd.
    - exact Hrow.
    - unfold select_rows.
      change (label, mkSeries (dtype col) (mask_select (values col) mask))
        with ((fun lc : string * Series =>
                 (fst lc, mkSeries (dtype (snd lc))
                                   (mask_select (values (snd lc)) mask)))
                (label, col)).
      now apply in_map. }
  split.
  - intros label col Hc Hne. unfold getitem.
    rewrite dict_get_set_skip by congruence. now rewrite (F label col Hc).
  - unfold getitem. rewrite dict_get_set_skip by discriminate.
    assert (Hc : In ("name", s) (df_metadata_dataset self)).
    { unfold getcol, getitem in Hs.
      destruct (dict_get _ "name") as [s0|] eqn:G; [|discriminate].
      injection Hs as ->. now apply dict_get_In. }
    rewrite (F "name" s Hc), Hvals. now rewrite nth_first_index.
Qed.

End DatasetRecord.

(** ** The type map of a projected read *)

Lemma dict_get_filter_key {V} (p : string -> bool) (d : dict V) (k : string) :
  dict_get (filter (fun kv => p (fst kv)) d) k
  = if p k then dict_get d k else None.
Proof.
  induction d as [|[k0 v0] d IH]; simpl; [now destruct (p k)|].
  destruct (p k0) eqn:P0; simpl.
  - destruct (String.eqb_spec k0 k) as [->|Hne]; [now rewrite P0|exact IH].
  - rewrite IH. destruct (String.eqb_spec k0 k) as [->|Hne]; [|reflexivity].
    now rewrite P0.
Qed.

(** X9. The restriction of the type map to the requested columns: no
    request, or an empty list of columns, restricts nothing; otherwise a
    column keeps its declared type when it is requested and is dropped
    when it is not, the kept columns stay in the order of the schema, and
    a requested column the schema does not have is passed over. *)
Theorem limit_columns_lookup (m : dict string) :
  NoDup (keys m) ->
  limit_columns m None = m
  /\ limit_columns m (Some []) = m
  /\ forall requested,
       requested <> [] ->
       (forall c,
           dict_get (limit_columns m (Some requested)) c
           = if existsb (String.eqb c) requested then dict_get m c else None)
       /\ keys (limit_columns m (Some requested))
          = filter (fun k => existsb (String.eqb k) requested) (keys m).
Proof.
  intros Hm. repeat split; intros.
  - rewrite (limit_columns_keys m requested Hm H).
    apply (dict_get_filter_key (fun k => existsb (String.eqb k) requested)).
  - rewrite (limit_columns_keys m requested Hm H).
    clear Hm. induction m as [|[k v] m IH]; simpl; [reflexivity|].
    destruct (existsb (String.eqb k) requested); simpl; now rewrite IH.
Qed.

Section CoercionEdges.

Variable ext : External.

Lemma set_dataset_dtype_empty (df : DataFrame) (parse_dates : bool) :
  _set_dataset_dtype ext df [] parse_dates = Ok df.
Proof.
  assert (A : astype ext df [] = Ok df).
  { unfold astype. simpl. apply traverse_id. }
  destruct parse_dates; unfold _set_dataset_dtype; simpl; now rewrite A.
Qed.

(** X10. A read that requests only columns the schema does not have
    leaves the table as it was read: the restricted type map is empty, no
    cast is made and nothing is raised, with or without date parsing. *)
Theorem set_dataset_dtype_unknown_columns (df : DataFrame) (m : dict string)
  (requested : list string) (parse_dates : bool) :
  NoDup (keys m) -> requested <> [] ->
  (forall c, In c requested -> ~ In c (keys m)) ->
  limit_columns m (Some requested) = []
  /\ _set_dataset_dtype ext df (limit_columns m (Some requested)) parse_dates
     = Ok df.
Proof.
  intros Hm Hr Hd.
  assert (E : limit_columns m (Some requested) = []).
  { rewrite (limit_columns_keys m requested Hm Hr).
    clear Hm. induction m as [|[k v] m IH]; simpl; [reflexivity|].
    destruct (existsb (String.eqb k) requested) eqn:X.
    - exfalso. apply existsb_eqb_In in X. apply (Hd k X). now left.
    - apply IH. intros c Hc Hin. apply (Hd c Hc). now right. }
  split; [exact E|]. rewrite E. apply set_dataset_dtype_empty.
Qed.

Lemma bind_Ok_r {A} (r : result A) : bind r (fun x => Ok x) = r.
Proof. now destruct r. Qed.

(** X11. [parse_dates] matters for date columns only: on a type map none
    of whose declared types contains ["date"], the coercion with date
    parsing and the one without give the same result, success or
    exception. *)
Theorem set_dataset_dtype_without_dates (df : DataFrame) (m : dict string) :
  NoDup (keys m) ->
  (forall c d, In (c, d) m -> contains "date" d = false) ->
  _set_dataset_dtype ext df m true = _set_dataset_dtype ext df m false.
Proof.
  intros Hm Hd. unfold _set_dataset_dtype.
  rewrite (split_dtypes m Hm), (retyped_dtypes m Hm).
  assert (F1 : filter (fun kv : string * string => negb (contains "date" (snd kv))) m
               = m).
  { clear Hm. induction m as [|[c d] m IH]; simpl; [reflexivity|].
    rewrite (Hd c d (or_introl eq_refl)). simpl. f_equal.
    apply IH. intros c' d' H. apply (Hd c' d'). now right. }
  assert (F2 : filter (fun kv : string * string => contains "date" (snd kv)) m = []).
  { clear Hm F1. induction m as [|[c d] m IH]; simpl; [reflexivity|].
    rewrite (Hd c d (or_introl eq_refl)).
    apply IH. intros c' d' H. apply (Hd c' d'). now right. }
  rewrite F1, F2. simpl.
  rewrite (map_ext_in
             (fun kv : string * string =>
                (fst kv, if contains "date" (snd kv) then "string"
                         else astype_name (snd kv)))
             (fun kv => (fst kv, astype_name (snd kv))) m).
  - apply bind_Ok_r.
  - intros [c d] H. simpl. now rewrite (Hd c d H).
Qed.

End CoercionEdges.

(** ** Which declared types become nullable integers *)

Lemma lower_not_I (c : ascii) : lower c <> "I"%char.
Proof.
  destruct c as [[] [] [] [] [] [] [] []]; vm_compute; discriminate.
Qed.

Lemma upper_I_lower_i (c : ascii) : upper c = "I"%char <-> lower c = "i"%char.
Proof.
  destruct c as [[] [] [] [] [] [] [] []]; vm_compute; split; congruence.
Qed.

Lemma capitalize_cons (d : string) (c : ascii) (r : string) :
  capitalize d = String c r <->
  exists c0 r0, d = String c0 r0 /\ upper c0 = c /\ lowercase r0 = r.
Proof.
  destruct d as [|c0 r0]; simpl.
  - split; [discriminate|]. intros (? & ? & H & _). discriminate.
  - split.
    + intros [= <- <-]. eauto.
    + intros (c1 & r1 & [= <- <-] & <- & <-). reflexivity.
Qed.

Lemma capitalize_Int (d rest : string) :
  capitalize d = String "I" rest <-> lowercase d = String "i" rest.
Proof.
  rewrite capitalize_cons. destruct d as [|c0 r0]; simpl.
  - split; [intros (? & ? & H & _)|]; discriminate.
  - split.
    + intros (c1 & r1 & [= <- <-] & Hu & <-).
      now rewrite (proj1 (upper_I_lower_i c0) Hu).
    + intros [= Hl <-]. exists c0, r0. repeat split.
      now apply upper_I_lower_i.
Qed.

Lemma capitalize_not_UInt (d rest : string) :
  capitalize d <> String "U" (String "I" rest).
Proof.
  intros H. apply capitalize_cons in H. destruct H as (c0 & r0 & _ & _ & H).
  destruct r0 as [|c1 r1]; simpl in H; [discriminate|].
  injection H as H _. exact (lower_not_I c1 H).
Qed.

(** X12. The capitalised form of a declared type is the name of a
    nullable integer dtype exactly when the type is int8, int16, int32 or
    int64 up to the case of its letters, and the dtype is then the signed
    one of that width; no declared type reaches an unsigned nullable
    dtype. *)
Theorem capitalize_nullable_int (d : string) (signed : bool) (bits : Z) :
  nullable_int_dtype (capitalize d) = Some (signed, bits)
  <-> signed = true
      /\ ((lowercase d = "int8" /\ bits = 8%Z)
          \/ (lowercase d = "int16" /\ bits = 16%Z)
          \/ (lowercase d = "int32" /\ bits = 32%Z)
          \/ (lowercase d = "int64" /\ bits = 64%Z)).
Proof.
  unfold nullable_int_dtype. split.
  - repeat match goal with
           | |- context [String.eqb (capitalize d) ?n] =>
               destruct (String.eqb_spec (capitalize d) n) as [E|_]
           end;
      try (exfalso; exact (capitalize_not_UInt d _ E));
      try (apply capitalize_Int in E; intros [= <- <-]; tauto);
      discriminate.
  - intros [-> H].
    assert (C : capitalize d = "Int8" /\ bits = 8%Z
                \/ capitalize d = "Int16" /\ bits = 16%Z
                \/ capitalize d = "Int32" /\ bits = 32%Z
                \/ capitalize d = "Int64" /\ bits = 64%Z).
    { destruct H as [[H ->]|[[H ->]|[[H ->]|[H ->]]]];
        apply capitalize_Int in H; tauto. }
    destruct C as [[-> ->]|[[-> ->]|[[-> ->]|[-> ->]]]]; reflexivity.
Qed.

(** ** Reading a dataset, end to end *)

Lemma dict_set_NoDup {V} (d : dict V) (k : string) (v : V) :
  NoDup (keys d) -> NoDup (keys (dict_set d k v)).
Proof.
  intros H. destruct (in_dec string_dec k (keys d)) as [Hin|Hin].
  - now rewrite keys_dict_set.
  - rewrite dict_set_fresh by exact Hin. unfold keys in *. rewrite map_app.
    simpl. apply NoDup_app; [exact H|repeat constructor; intros []|].
    intros x Hx [<-|[]]. contradiction.
Qed.

Lemma dict_comprehension_NoDup {V W} (f : string -> V -> W) (d : dict V) :
  NoDup (keys (dict_comprehension f d)).
Proof.
  unfold dict_comprehension.
  assert (G : forall acc : dict W,
             NoDup (keys acc) ->
             NoDup (keys (fold_left
                            (fun acc kv => dict_set acc (fst kv) (f (fst kv) (snd kv)))
                            d acc))).
  { induction d as [|kv d IH]; intros acc H; simpl; [exact H|].
    apply IH. now apply dict_set_NoDup. }
  apply G. constructor.
Qed.

Lemma get_dataset_dtype_NoDup (ext : External) (self : OpenFEMA)
  (dataset : string) (version : cell) (column_dtypes : dict string) :
  _get_dataset_dtype ext self dataset version = Ok column_dtypes ->
  NoDup (keys column_dtypes).
Proof.
  unfold _get_dataset_dtype.
  destruct (negb _); [discriminate|].
  destruct (item0 _) as [name|e]; [|discriminate]. cbn [bind].
  destruct (getitem _ name) as [entry|e]; [|discriminate]. cbn [bind].
  intros [= <-]. apply dict_comprehension_NoDup.
Qed.

Lemma limit_columns_NoDup (m : dict string) (requested : option (list string)) :
  NoDup (keys m) -> NoDup (keys (limit_columns m requested)).
Proof.
  intros Hm. destruct requested as [[|c cs]|]; try exact Hm.
  rewrite (limit_columns_keys m (c :: cs) Hm) by discriminate.
  now apply NoDup_keys_filter.
Qed.

Section ReadDataset.

Variable ext : External.
Variable self : OpenFEMA.

(** X13. [read_dataset], once the dataset is described, its formats are
    decoded, the URL is generated and the reader of the selected format
    has returned a table that has every column of the restricted type map,
    returns exactly the tables in which each column of that map is the
    cast of the column read and every other column is as read.  The type
    map is the one [dataset_info] reports under ["columns"], restricted to
    the requested columns; the warnings of [list_datasets] come three
    times, once for each call of [dataset_info]. *)
Theorem read_dataset_coerces_table (dataset : string)
  (requested : option (list string))
  (filters : option (list (list filter_atom)))
  (sort_by : option (list sort_key)) (top skip : option Z)
  (parse_dates : bool) (file_format : option string)
  (w : list warning) (info : dict cell) (file_formats : list string)
  (web_service_url : cell) (column_dtypes : dict string) (u : string)
  (df : DataFrame) :
  dataset_info ext self dataset = (w, Ok info) ->
  (distribution <- getitem info "distribution" ;;
   format_strs <- iter_cell distribution ;;
   traverse (json_loads_format ext) format_strs) = Ok file_formats ->
  getitem info "webService" = Ok web_service_url ->
  getitem info "columns" = Ok (VDict column_dtypes) ->
  let selected := select_file_format file_formats file_format in
  generate_url ext web_service_url column_dtypes selected
               requested filters sort_by top skip = Ok u ->
  read_url ext selected u = Ok df ->
  NoDup (columns df) ->
  let types := limit_columns column_dtypes requested in
  incl (keys types) (columns df) ->
  forall df',
    read_dataset ext self dataset requested filters sort_by top skip
                 parse_dates file_format = (w ++ w ++ w, Ok df')
    <-> Forall2 (coerced ext parse_dates types) df df'.
Proof.
  intros Hinfo Hdist Hws Hcols selected Hurl Hread Hdf types Hincl df'.
  destruct (dataset_info_inversion ext self dataset w info Hinfo)
    as (l & row & version & cd & _ & _ & _ & Hv & Hd & E).
  assert (Hcd : cd = column_dtypes).
  { subst info. unfold getitem in Hcols. rewrite dict_get_set_same in Hcols.
    congruence. }
  subst cd.
  assert (Hv' : getitem info "version" = Ok version).
  { subst info. unfold getitem in *.
    rewrite dict_get_set_skip; [exact Hv|discriminate]. }
  assert (Htypes : NoDup (keys types)).
  { apply limit_columns_NoDup.
    exact (get_dataset_dtype_NoDup ext self dataset version column_dtypes Hd). }
  unfold read_dataset.
  rewrite Hinfo, mbind_Ok, Hdist, mbind_lift_Ok.
  rewrite mbind_Ok, Hws, mbind_lift_Ok.
  rewrite mbind_Ok, Hv', mbind_lift_Ok, Hd, mbind_lift_Ok.
  fold selected. rewrite Hurl, mbind_lift_Ok, Hread, mbind_lift_Ok.
  fold types. unfold lift. cbn [fst snd]. rewrite app_nil_r.
  rewrite <- (traverse_coerced ext parse_dates types df df').
  rewrite <- (set_dataset_dtype_traverse ext df types parse_dates df'
                Hdf Htypes Hincl).
  split.
  - intros [= H]. exact H.
  - intros ->. reflexivity.
Qed.

End ReadDataset.

(** ** Construction *)

Lemma valid_format_In (file_format : string) :
  existsb (String.eqb file_format) ["json"; "yaml"] = true
  <-> In file_format ["json"; "yaml"].
Proof. apply existsb_eqb_In. Qed.

Section Construction.

Variable ext : External.

(** X1. What a successful construction guarantees: the format is json or
    yaml, the document of the object is the one parsed from the endpoint,
    its url is the url of the first server described as ["Production"],
    exactly one key of [paths] contains ["DataSets"], and the catalogue is
    the parquet table read at the url followed by that key. *)
Theorem init_returns (endpoint file_format : string) (self : OpenFEMA) :
  __init__ ext endpoint file_format = Ok self ->
  In file_format ["json"; "yaml"]
  /\ exists file text key,
       fs_open ext (endpoint +++ "." +++ file_format) = Ok file
       /\ file_read ext file = Ok text
       /\ (if String.eqb file_format "json" then json_loads ext text
           else yaml_safe_load ext text) = Ok (openapi_metadata self)
       /\ item0 (map server_url
                     (filter is_production (servers (openapi_metadata self))))
          = Ok (url self)
       /\ filter (contains "DataSets") (keys (paths (openapi_metadata self)))
          = [key]
       /\ pd_read_parquet ext (url self +++ key +++ ".parquet")
          = Ok (df_metadata_dataset self).
Proof.
  unfold __init__. intros H.
  destruct (existsb (String.eqb file_format) ["json"; "yaml"]) eqn:F;
    [|discriminate].
  cbn [negb] in H. split; [now apply valid_format_In|].
  destruct (fs_open ext _) as [file|e] eqn:O; [|destruct e; discriminate].
  assert (X : (if String.eqb file_format "json"
               then text <- file_read ext file ;; json_loads ext text
               else text <- file_read ext file ;; yaml_safe_load ext text)
              = (text <- file_read ext file ;;
                 if String.eqb file_format "json" then json_loads ext text
                 else yaml_safe_load ext text)).
  { now destruct (String.eqb file_format "json"). }
  rewrite X in H. clear X.
  destruct (file_read ext file) as [text|e] eqn:Hr; [|discriminate].
  cbn [bind] in H.
  destruct (if String.eqb file_format "json" then json_loads ext text
            else yaml_safe_load ext text) as [doc|e] eqn:Hp; [|discriminate].
  cbn [bind] in H.
  change (fun server_dict : Server =>
            String.eqb (server_description server_dict) "Production")
    with is_production in H.
  destruct (item0 (map server_url (filter is_production (servers doc))))
    as [u|e] eqn:U; [|discriminate].
  cbn [bind] in H.
  destruct (filter (contains "DataSets") (keys (paths doc)))
    as [|key [|key' rest]] eqn:K; try discriminate.
  cbn [List.length Nat.eqb negb item0 bind] in H.
  destruct (pd_read_parquet ext (u +++ key +++ ".parquet")) as [df|e] eqn:R;
    [|destruct e; discriminate].
  injection H as <-. simpl.
  exists file, text, key. repeat split; assumption.
Qed.

(** X2. When the document has been fetched and parsed and has a
    ["Production"] server: unless exactly one key of [paths] contains
    ["DataSets"], the constructor raises NotImplementedError with the
    matching keys and reads no catalogue; with exactly one, it reads the
    parquet table at the url followed by that key, turns a ValueError of
    the reader into NotImplementedError and lets any other exception
    through. *)
Theorem init_catalog_endpoint (endpoint file_format file text : string)
  (doc : MetadataDocument) (u : string) :
  In file_format ["json"; "yaml"] ->
  fs_open ext (endpoint +++ "." +++ file_format) = Ok file ->
  file_read ext file = Ok text ->
  (if String.eqb file_format "json" then json_loads ext text
   else yaml_safe_load ext text) = Ok doc ->
  item0 (map server_url (filter is_production (servers doc))) = Ok u ->
  let candidates := filter (contains "DataSets") (keys (paths doc)) in
  (List.length candidates <> 1 ->
   __init__ ext endpoint file_format
   = Raise (NotImplementedError
              ("Multiple possible options found for the " +++
               "metadata for the OpenFEMA API data sets.") candidates))
  /\ (forall key,
         candidates = [key] ->
         __init__ ext endpoint file_format
         = match pd_read_parquet ext (u +++ key +++ ".parquet") with
           | Ok df => Ok (mkOpenFEMA doc u df)
           | Raise (ValueError _) =>
               Raise (NotImplementedError
                        ("The parquet file containing the metadata for the " +++
                         "OpenFEMA API data sets no longer exists.") [])
           | Raise e => Raise e
           end).
Proof.
  intros Hf Ho Hr Hp Hu candidates.
  assert (E : __init__ ext endpoint file_format
              = if negb (List.length candidates =? 1)%nat then
                  Raise (NotImplementedError
                           ("Multiple possible options found for the " +++
                            "metadata for the OpenFEMA API data sets.") candidates)
                else
                  key <- item0 candidates ;;
                  match pd_read_parquet ext (u +++ key +++ ".parquet") with
                  | Ok df => Ok (mkOpenFEMA doc u df)
                  | Raise (ValueError _) =>
                      Raise (NotImplementedError
                               ("The parquet file containing the metadata for the " +++
                                "OpenFEMA API data sets no longer exists.") [])
                  | Raise e => Raise e
                  end).
  { unfold __init__.
    rewrite (proj2 (valid_format_In file_format) Hf). cbn [negb].
    rewrite Ho.
    assert (Hp' : (if String.eqb file_format "json"
                   then text <- file_read ext file ;; json_loads ext text
                   else text <- file_read ext file ;; yaml_safe_load ext text)
                  = Ok doc).
    { destruct (String.eqb file_format "json"); rewrite Hr; exact Hp. }
    rewrite Hp'. cbn [bind].
    change (fun server_dict : Server =>
              String.eqb (server_description server_dict) "Production")
      with is_production.
    rewrite Hu. cbn [bind]. fold candidates.
    destruct (negb (List.length candidates =? 1)%nat); [reflexivity|].
    destruct (item0 candidates) as [key|e]; cbn [bind]; [|reflexivity].
    destruct (pd_read_parquet ext (u +++ key +++ ".parquet")) as [df|[]];
      reflexivity. }
  rewrite E. split.
  - intros H. destruct (Nat.eqb_spec (List.length candidates) 1);
      [contradiction|reflexivity].
  - intros key ->. reflexivity.
Qed.

End Construction.

(** ** The existence check and the errors of the lookups *)

Lemma filter_eqb_repeat (k : string) (l : list string) :
  filter (String.eqb k) l = repeat k (count_occ string_dec l k).
Proof.
  induction l as [|x l IH]; simpl; [reflexivity|].
  destruct (string_dec x k) as [->|Hne].
  - rewrite String.eqb_refl. simpl. now rewrite IH.
  - destruct (String.eqb_spec k x); [congruence|exact IH].
Qed.

Lemma first_record_keys (df : DataFrame) (row : dict cell) (label : string) :
  item0 (to_dict_records df) = Ok row -> ~ In label (columns df) ->
  dict_get row label = None.
Proof.
  intros Hrow Hl. unfold to_dict_records in Hrow.
  destruct (nrows df) as [|n]; [discriminate|].
  simpl in Hrow. injection Hrow as <-.
  assert (G : forall (acc : dict cell),
             dict_get acc label = None ->
             dict_get (fold_left
                         (fun d lc => dict_set d (fst lc) (nth 0 (values (snd lc)) NA))
                         df acc) label = None).
  { induction df as [|[l0 s0] df IH]; intros acc Ha; simpl; [exact Ha|].
    apply IH.
    - intros H. apply Hl. now right.
    - simpl in Hl. rewrite dict_get_set_skip; [exact Ha|tauto]. }
  now apply G.
Qed.

Section Lookups.

Variable ext : External.
Variable self : OpenFEMA.

(** X14. The existence check passes exactly for the names that
    [list_datasets] returns, raises the ValueError of the missing dataset
    for every other name, repeats the warnings of [list_datasets], and
    lets a failure of [list_datasets] through. *)
Theorem check_if_dataset_exists_iff (dataset : string) :
  (forall w l,
      list_datasets self = (w, Ok l) ->
      (_check_if_dataset_exists self dataset = (w, Ok tt) <-> In dataset l)
      /\ (_check_if_dataset_exists self dataset = (w, Raise (not_found dataset))
          <-> ~ In dataset l))
  /\ (forall w e,
        list_datasets self = (w, Raise e) ->
        _check_if_dataset_exists self dataset = (w, Raise e)).
Proof.
  split.
  - intros w l H.
    rewrite (check_if_dataset_exists_listed self dataset w l H).
    destruct (in_dec string_dec dataset l) as [Hin|Hin]; split; split;
      try tauto; try discriminate; intros; contradiction.
  - intros w e H. unfold _check_if_dataset_exists.
    destruct (_validate_metadata_dataset_list self) as [[]|e0] eqn:V.
    + now rewrite mbind_lift_Ok, H.
    + unfold list_datasets in H. rewrite V in H. simpl in H.
      injection H as <- <-. reflexivity.
Qed.

(** X15. The NotImplementedError of the schema lookup carries the keys
    that matched: as many copies of ["v{version}-{dataset}"] as there are
    keys equal to it, so none when the schema is missing. *)
Theorem get_dataset_dtype_error_options (dataset : string) (version : cell) :
  let key := "v" +++ format_value ext version +++ "-" +++ dataset in
  let matches :=
    count_occ string_dec (keys (components_schemas (openapi_metadata self))) key in
  matches <> 1 ->
  _get_dataset_dtype ext self dataset version
  = Raise (NotImplementedError
             ("Multiple possible options found for the " +++
              "dataset in the OpenFEMA API metadata.")
             (repeat key matches)).
Proof.
  intros key matches H. unfold _get_dataset_dtype. fold key.
  change (fun dataset_name : string => String.eqb key dataset_name)
    with (String.eqb key).
  rewrite filter_eqb_repeat. fold matches. rewrite repeat_length.
  destruct (Nat.eqb_spec matches 1); [contradiction|reflexivity].
Qed.

(** X16. A catalogue that lacks a column the class reads surfaces as the
    KeyError of that column: without ["version"], [dataset_info] of a
    listed name raises KeyError; without ["distribution"], [read_dataset]
    raises KeyError once [dataset_info] has succeeded. *)
Theorem missing_catalogue_column (dataset : string) (w : list warning) :
  (forall l,
      list_datasets self = (w, Ok l) -> In dataset l ->
      rectangular (df_metadata_dataset self) ->
      ~ In "version" (columns (df_metadata_dataset self)) ->
      dataset_info ext self dataset = (w, Raise (KeyError "version")))
  /\ (forall info requested filters sort_by top skip parse_dates file_format,
        dataset_info ext self dataset = (w, Ok info) ->
        ~ In "distribution" (columns (df_metadata_dataset self)) ->
        read_dataset ext self dataset requested filters sort_by top skip
                     parse_dates file_format
        = (w, Raise (KeyError "distribution"))).
Proof.
  split.
  - intros l H Hin Hrect Hv.
    destruct (list_datasets_returns self w l H) as (s & names & Hs & Hn & Hl).
    destruct (first_record_exists self dataset s names Hrect Hs Hn
                (listed_In names w l dataset Hl Hin)) as [row Hrow].
    unfold first_record in Hrow. rewrite Hs in Hrow. cbn [bind] in Hrow.
    assert (K : getitem row "version" = Raise (KeyError "version")).
    { unfold getitem. rewrite (first_record_keys _ row "version" Hrow);
        [reflexivity|].
      unfold select_rows, columns. rewrite map_map. exact Hv. }
    unfold dataset_info.
    rewrite (validate_name_column self s Hs), mbind_lift_Ok.
    rewrite (check_if_dataset_exists_listed self dataset w l H).
    destruct (in_dec string_dec dataset l); [|contradiction].
    rewrite mbind_Ok, Hs, mbind_lift_Ok, Hrow, mbind_lift_Ok, K.
    simpl. now rewrite app_nil_r.
  - intros info requested filters sort_by top skip parse_dates file_format
           H Hd.
    destruct (dataset_info_inversion ext self dataset w info H)
      as (l & row & version & cd & _ & _ & Hrow & _ & _ & ->).
    destruct (df_metadata_dataset self) as [|c0 df0] eqn:Edf.
    { unfold first_record, getcol, getitem in Hrow. rewrite Edf in Hrow.
      discriminate. }
    rewrite <- Edf in *. clear Edf c0 df0.
    unfold first_record in Hrow.
    destruct (getcol (df_metadata_dataset self) "name") as [s|e];
      [|discriminate].
    cbn [bind] in Hrow.
    assert (K : getitem (dict_set row "columns" (VDict cd)) "distribution"
                = Raise (KeyError "distribution")).
    { unfold getitem. rewrite dict_get_set_skip by discriminate.
      rewrite (first_record_keys _ row "distribution" Hrow); [reflexivity|].
      unfold select_rows, columns. rewrite map_map. exact Hd. }
    unfold read_dataset. rewrite H, mbind_Ok, K. simpl. now rewrite app_nil_r.
Qed.

End Lookups.

(** ** The errors of the constructor *)

Section ConstructionErrors.

Variable ext : External.

(** X17. The constructor rejects every format other than "json" and
    "yaml" with a ValueError, before anything is opened; with a valid
    format, a FileNotFoundError of the file system is raised again as a
    FileNotFoundError that names the endpoint, and any other exception of
    the file system is let through as it is. *)
Theorem init_errors (endpoint file_format : string) :
  (~ In file_format ["json"; "yaml"] ->
   __init__ ext endpoint file_format
   = Raise (ValueError ("The specified format of '" +++ file_format +++
                        "' for the metadata endpoint is not available. " +++
                        "Acceptable formats are 'json' or 'yaml'")))
  /\ (In file_format ["json"; "yaml"] ->
      forall e,
        fs_open ext (endpoint +++ "." +++ file_format) = Raise e ->
        __init__ ext endpoint file_format
        = Raise (match e with
                 | FileNotFoundError _ =>
                     FileNotFoundError
                       ("The OpenFEMA OpenAPI metadata endpoint of " +++
                        endpoint +++ "." +++ file_format +++
                        " is not valid. Double check " +++
                        "the endpoint at https://www.fema.gov/about/openfema/api.")
                 | _ => e
                 end)).
Proof.
  split.
  - intros H. unfold __init__.
    destruct (existsb (String.eqb file_format) ["json"; "yaml"]) eqn:F;
      [|reflexivity].
    exfalso. apply H. now apply valid_format_In.
  - intros H e He. unfold __init__.
    rewrite (proj2 (valid_format_In file_format) H). cbn [negb].
    rewrite He. now destruct e.
Qed.

End ConstructionErrors.

(** ** The further properties on the small remote *)

Lemma validation_failure_everywhere_witness :
  list_datasets Demo.client_untitled = ([], Raise names_column_changed)
  /\ forall dataset,
       dataset_info Demo.ext Demo.client_untitled dataset
       = ([], Raise names_column_changed).
Proof.
  destruct (validation_failure_everywhere Demo.ext Demo.client_untitled eq_refl)
    as (H1 & _ & H3 & _).
  split; [exact H1|exact H3].
Defined.

Lemma read_dataset_unknown_dataset_witness :
  read_dataset Demo.ext Demo.client "FimaNfipClaims" None None None None None
               true None
  = ([], Raise (not_found "FimaNfipClaims")).
Proof.
  apply (proj2 (read_dataset_unknown_dataset Demo.ext Demo.client
                  "FimaNfipClaims" None None None None None true None)
           [] ["DisasterDeclarations"] eq_refl).
  simpl. intuition discriminate.
Defined.

Lemma internal_dataset_not_found_witness :
  ~ In "OpenFemaDataSets" ["DisasterDeclarations"]
  /\ dataset_info Demo.ext Demo.client "OpenFemaDataSets"
     = ([], Raise (not_found "OpenFemaDataSets")).
Proof.
  destruct (internal_dataset_not_found Demo.ext Demo.client "OpenFemaDataSets"
              ["DisasterDeclarations"] eq_refl eq_refl) as (H1 & H2 & _).
  split; [exact H1|exact H2].
Defined.

Lemma list_datasets_depends_on_names_witness :
  exists w1 w2 l,
    list_datasets Demo.client_versions = (w1, Ok l)
    /\ list_datasets Demo.client_shuffled = (w2, Ok l)
    /\ (w1 = [] <-> w2 = []).
Proof.
  apply (list_datasets_depends_on_names Demo.client_versions Demo.client_shuffled
           _ _ _ _ eq_refl eq_refl eq_refl eq_refl).
  intros x. simpl. tauto.
Defined.

Lemma dataset_info_consistent_witness :
  exists version column_dtypes,
    getitem [("name", VStr "DisasterDeclarations"); ("version", VInt 2);
             ("distribution", VList ["csv"; "parquet"]);
             ("webService",
              VStr "https://www.fema.gov/api/open/v2/DisasterDeclarations");
             ("columns", VDict Demo.dtypes)] "version" = Ok version
    /\ _get_dataset_dtype Demo.ext Demo.client "DisasterDeclarations" version
       = Ok column_dtypes
    /\ getitem [("name", VStr "DisasterDeclarations"); ("version", VInt 2);
                ("distribution", VList ["csv"; "parquet"]);
                ("webService",
                 VStr "https://www.fema.gov/api/open/v2/DisasterDeclarations");
                ("columns", VDict Demo.dtypes)] "columns"
       = Ok (VDict column_dtypes).
Proof.
  exact (proj2 (dataset_info_consistent Demo.ext Demo.client
                  "DisasterDeclarations" [] _ eq_refl)).
Defined.

Lemma dataset_info_first_row_witness :
  getitem [("name", VStr "DisasterDeclarations"); ("version", VInt 2);
           ("distribution", VList ["csv"; "parquet"]);
           ("webService",
            VStr "https://www.fema.gov/api/open/v2/DisasterDeclarations");
           ("columns", VDict Demo.dtypes)] "name"
  = Ok (VStr "DisasterDeclarations").
Proof.
  refine (proj2 (dataset_info_first_row Demo.ext Demo.client
                   "DisasterDeclarations" [] _ _ _ eq_refl _ eq_refl eq_refl)).
  distinct_strings.
Defined.

Lemma limit_columns_lookup_witness :
  keys (limit_columns Demo.dtypes (Some ["disasterNumber"; "geometry"; "state"]))
  = ["state"; "disasterNumber"].
Proof.
  assert (N : NoDup (keys Demo.dtypes)) by distinct_strings.
  destruct (limit_columns_lookup Demo.dtypes N) as (_ & _ & H).
  destruct (H ["disasterNumber"; "geometry"; "state"]) as [_ K];
    [discriminate|].
  exact K.
Defined.

Lemma set_dataset_dtype_unknown_columns_witness :
  limit_columns Demo.dtypes (Some ["geometry"]) = []
  /\ _set_dataset_dtype Demo.ext Demo.data
       (limit_columns Demo.dtypes (Some ["geometry"])) true
     = Ok Demo.data.
Proof.
  apply set_dataset_dtype_unknown_columns.
  - distinct_strings.
  - discriminate.
  - intros c [<-|[]]. simpl. intuition discriminate.
Defined.

Lemma set_dataset_dtype_without_dates_witness :
  _set_dataset_dtype Demo.ext Demo.data
    [("state", "string"); ("disasterNumber", "int32")] true
  = _set_dataset_dtype Demo.ext Demo.data
      [("state", "string"); ("disasterNumber", "int32")] false.
Proof.
  apply set_dataset_dtype_without_dates.
  - distinct_strings.
  - intros c d [[= <- <-]|[[= <- <-]|[]]]; reflexivity.
Defined.

Lemma read_dataset_coerces_table_witness :
  Forall2 (coerced Demo.ext true (limit_columns Demo.dtypes (Some ["state"])))
    Demo.data_state
    [("state", mkSeries "string" [VStr "CA"; VStr "TX"])].
Proof.
  refine (proj1 (read_dataset_coerces_table
                   (Demo.remote Demo.doc Demo.catalog Demo.data_state)
                   Demo.client "DisasterDeclarations" (Some ["state"])
                   None None None None true (Some "csv")
                   [] _ _ _ Demo.dtypes _ Demo.data_state
                   eq_refl eq_refl eq_refl eq_refl eq_refl eq_refl _ _ _)
            eq_refl).
  - distinct_strings.
  - intros x H. exact H.
Defined.

Lemma init_returns_witness :
  In "json" ["json"; "yaml"]
  /\ exists file text key,
       fs_open Demo.ext (Demo.endpoint +++ "." +++ "json") = Ok file
       /\ file_read Demo.ext file = Ok text
       /\ (if String.eqb "json" "json" then json_loads Demo.ext text
           else yaml_safe_load Demo.ext text)
          = Ok (openapi_metadata Demo.client)
       /\ item0 (map server_url
                     (filter is_production
                             (servers (openapi_metadata Demo.client))))
          = Ok (url Demo.client)
       /\ filter (contains "DataSets")
                 (keys (paths (openapi_metadata Demo.client))) = [key]
       /\ pd_read_parquet Demo.ext (url Demo.client +++ key +++ ".parquet")
          = Ok (df_metadata_dataset Demo.client).
Proof.
  exact (init_returns Demo.ext Demo.endpoint "json" Demo.client eq_refl).
Defined.

Lemma init_catalog_endpoint_witness :
  __init__ (Demo.remote Demo.doc_two_catalogs Demo.catalog Demo.data)
           Demo.endpoint "json"
  = Raise (NotImplementedError
             ("Multiple possible options found for the " +++
              "metadata for the OpenFEMA API data sets.")
             ["/v1/OpenFemaDataSets"; "/v2/OpenFemaDataSets"])
  /\ __init__ Demo.ext Demo.endpoint "json" = Ok Demo.client.
Proof.
  split.
  - refine (proj1 (init_catalog_endpoint
                     (Demo.remote Demo.doc_two_catalogs Demo.catalog Demo.data)
                     Demo.endpoint "json" _ _ Demo.doc_two_catalogs _
                     (or_introl eq_refl) eq_refl eq_refl eq_refl eq_refl) _).
    simpl. discriminate.
  - exact (proj2 (init_catalog_endpoint Demo.ext Demo.endpoint "json" _ _
                    Demo.doc _ (or_introl eq_refl) eq_refl eq_refl eq_refl
                    eq_refl) "/v1/OpenFemaDataSets" eq_refl).
Defined.

Lemma check_if_dataset_exists_iff_witness :
  (_check_if_dataset_exists Demo.client "DisasterDeclarations" = ([], Ok tt)
   <-> In "DisasterDeclarations" ["DisasterDeclarations"])
  /\ (_check_if_dataset_exists Demo.client "DisasterDeclarations"
      = ([], Raise (not_found "DisasterDeclarations"))
      <-> ~ In "DisasterDeclarations" ["DisasterDeclarations"]).
Proof.
  exact (proj1 (check_if_dataset_exists_iff Demo.client "DisasterDeclarations")
           [] ["DisasterDeclarations"] eq_refl).
Defined.

Lemma get_dataset_dtype_error_options_witness :
  _get_dataset_dtype Demo.ext Demo.client "DisasterDeclarations" (VInt 1)
  = Raise (NotImplementedError
             ("Multiple possible options found for the " +++
              "dataset in the OpenFEMA API metadata.") []).
Proof.
  apply (get_dataset_dtype_error_options Demo.ext Demo.client
           "DisasterDeclarations" (VInt 1)).
  simpl. discriminate.
Defined.

Lemma missing_catalogue_column_witness :
  dataset_info Demo.ext Demo.client_shuffled "DisasterDeclarations"
  = ([], Raise (KeyError "version"))
  /\ read_dataset Demo.ext Demo.client_versions "DisasterDeclarations"
       None None None None None true None
     = ([], Raise (KeyError "distribution")).
Proof.
  split.
  - apply (proj1 (missing_catalogue_column Demo.ext Demo.client_shuffled
                    "DisasterDeclarations" []) ["DisasterDeclarations"]).
    + reflexivity.
    + now left.
    + intros label s [[= <- <-]|[]]. reflexivity.
    + simpl. intuition discriminate.
  - refine (proj2 (missing_catalogue_column Demo.ext Demo.client_versions
                     "DisasterDeclarations" [])
              _ None None None None None true None eq_refl _).
    simpl. intuition discriminate.
Defined.

Lemma init_errors_witness :
  __init__ Demo.ext Demo.endpoint "xml"
  = Raise (ValueError ("The specified format of '" +++ "xml" +++
                       "' for the metadata endpoint is not available. " +++
                       "Acceptable formats are 'json' or 'yaml'")).
Proof.
  apply (proj1 (init_errors Demo.ext Demo.endpoint "xml")).
  simpl. intuition discriminate.
Defined.

Lemma capitalize_nullable_int_witness :
  nullable_int_dtype (capitalize "INT32") = Some (true, 32%Z)
  /\ nullable_int_dtype (capitalize "uint32") = None.
Proof.
  split.
  - apply (proj2 (capitalize_nullable_int "INT32" true 32%Z)).
    split; [reflexivity|]. right. right. left. split; reflexivity.
  - destruct (nullable_int_dtype (capitalize "uint32")) as [[signed bits]|] eqn:E;
      [|reflexivity].
    exfalso.
    destruct (proj1 (capitalize_nullable_int "uint32" signed bits) E)
      as [_ [[H _]|[[H _]|[[H _]|[H _]]]]]; discriminate.
Defined.

